(** * Session store, authorization guard and challan reconciliation

    A shallow embedding of the browser-side core of the traffic-violation
    front ends: the two session stores ([state/AuthContext.jsx] of the
    Material UI client and [contexts/AuthContext.jsx] of the SPA), the two
    [ProtectedRoute] guards, and the vehicle owner's dashboard with its
    violation-to-challan reconciliation pass and its pay control. *)

From Stdlib Require Import ZArith String Ascii List Bool Lia DecimalString.
From stdpp Require Import gmap strings list fin_maps.
Import ListNotations.

Local Open Scope string_scope.

(** ** JavaScript values

    The values that travel through the modelled code are JSON responses of
    the backend and what the components derive from them.  Numbers are the
    Numbers whose value is an integer (identifiers and counts): [JNum z]
    for an integer [z] that is a Number value, which every integer up to
    2^53 in size is.  [String] prints them as [Number::toString] does: in
    plain decimal notation below 2^53, with the fewest digits that read
    back as the same Number from there on, and in exponent notation from
    1e21 on. *)
Module JS.

#[warnings="-register-all"]
Inductive jsval : Type :=
| JUndefined
| JNull
| JBool (b : bool)
| JNum (z : Z)
| JStr (s : string)
| JArr (items : list jsval)
| JObj (fields : list (string * jsval)).

(** [Boolean(v)], the test behind [if (v)], [!v], [a && b] and [a || b]. *)
Definition truthy (v : jsval) : bool :=
  match v with
  | JUndefined | JNull => false
  | JBool b => b
  | JNum z => negb (z =? 0)%Z
  | JStr s => negb (String.eqb s EmptyString)
  | JArr _ | JObj _ => true
  end.

(** [a || b] and [a && b] return one of their operands. *)
Definition js_or (a b : jsval) : jsval := if truthy a then a else b.
Definition js_and (a b : jsval) : jsval := if truthy a then b else a.

(** Own property of an object literal or of a parsed JSON object; the field
    lists built here carry each key once. *)
Fixpoint assoc (k : string) (fs : list (string * jsval)) : jsval :=
  match fs with
  | [] => JUndefined
  | (k', v) :: rest => if String.eqb k k' then v else assoc k rest
  end.

(** [v?.k]: [undefined] on [null] and [undefined], the property otherwise.
    None of the keys read by the modelled code is a built-in property of a
    primitive or of an array, so those yield [undefined]. *)
Definition get (v : jsval) (k : string) : jsval :=
  match v with
  | JObj fs => assoc k fs
  | _ => JUndefined
  end.

(** [v.k]: a [TypeError] ([None]) on [null] and [undefined]. *)
Definition member (v : jsval) (k : string) : option jsval :=
  match v with
  | JUndefined | JNull => None
  | _ => Some (get v k)
  end.

(** *** [Number::toString] on integers *)

Definition decimal (z : Z) : string := NilZero.string_of_int (Z.to_int z).

(** The Number nearest to a positive integer, ties going to the even
    mantissa, which is how a literal or [JSON.parse] reads it; [None] is
    [Infinity].  A Number value is left as it is. *)
Definition nearest_number (z : Z) : option Z :=
  let bits := (Z.log2 z + 1)%Z in
  if (bits <=? 53)%Z then Some z
  else
    let sh := (bits - 53)%Z in
    let q := Z.shiftr z sh in
    let r := (z - Z.shiftl q sh)%Z in
    let half := Z.shiftl 1 (sh - 1) in
    let q' := if (half <? r)%Z || ((r =? half)%Z && Z.odd q) then (q + 1)%Z else q in
    let d := Z.shiftl q' sh in
    if (2 ^ 1024 <=? d)%Z then None else Some d.

(** For a Number [d] from 2^53 on: twice the bounds of the reals that
    read as [d], and whether the bounds themselves do (they do when the
    mantissa of [d] is even). *)
Definition reads_as (d : Z) : Z * Z * bool :=
  let e := (Z.log2 d + 1 - 53)%Z in
  let m := Z.shiftr d e in
  let below := if (m =? 2 ^ 52)%Z then (2 ^ (e - 1))%Z else (2 ^ e)%Z in
  ((2 * d - below)%Z, (2 * d + 2 ^ e)%Z, Z.even m).

Definition within (iv : Z * Z * bool) (x2 : Z) : bool :=
  let '(lo, hi, closed) := iv in
  if closed then (lo <=? x2)%Z && (x2 <=? hi)%Z else (lo <? x2)%Z && (x2 <? hi)%Z.

(** The two [k]-digit values [s * 10^(n-k)] next to [d] that read as [d],
    each as [(s, n)]. *)
Definition candidates (d : Z) (iv : Z * Z * bool) (k n : Z) : list (Z * Z) :=
  if (n <? k)%Z then []
  else
    let p := (10 ^ (n - k))%Z in
    List.filter
      (fun c => (10 ^ (k - 1) <=? fst c)%Z && (fst c <? 10 ^ k)%Z
                && within iv (2 * fst c * p)%Z)
      [((d / p)%Z, n); ((d / p + 1)%Z, n)].

(** The candidate closer to [d], the even one on a tie. *)
Definition closer (d k : Z) (a b : Z * Z) : Z * Z :=
  let dist c := Z.abs (fst c * 10 ^ (snd c - k) - d) in
  if (dist a <? dist b)%Z then a
  else if (dist b <? dist a)%Z then b
  else if Z.even (fst a) then a else b.

Definition best (d k : Z) (l : list (Z * Z)) : option (Z * Z) :=
  match l with
  | [] => None
  | c :: rest => Some (fold_left (closer d k) rest c)
  end.

(** The fewest digits that read as [d], tried in the order of [ks]:
    [(s, k, n)] for the digits [s], their number [k] and the number [n] of
    digits before the decimal point. *)
Fixpoint shortest (d : Z) (iv : Z * Z * bool) (D : Z) (ks : list Z)
    : option (Z * Z * Z) :=
  match ks with
  | [] => None
  | k :: rest =>
      match best d k (candidates d iv k D ++ candidates d iv k (D + 1))%list with
      | Some (s, n) => Some (s, k, n)
      | None => shortest d iv D rest
      end
  end.

Fixpoint zeros (n : nat) : string :=
  match n with
  | O => EmptyString
  | S n' => String "0" (zeros n')
  end.

(** [Number::toString] of a positive integer Number. *)
Definition print_number (d : Z) : string :=
  if (d <? 2 ^ 53)%Z then decimal d
  else
    let D := Z.of_nat (String.length (decimal d)) in
    match shortest d (reads_as d) D (map Z.of_nat (seq 1 17)) with
    | None => decimal d
    | Some (s, k, n) =>
        if (n <=? 21)%Z then decimal s ++ zeros (Z.to_nat (n - k))
        else
          match decimal s with
          | String c EmptyString => String c ("e+" ++ decimal (n - 1))
          | String c rest => String c ("." ++ rest ++ "e+" ++ decimal (n - 1))
          | EmptyString => EmptyString
          end
    end.

Definition number_to_string (z : Z) : string :=
  if (z =? 0)%Z then "0"
  else
    match nearest_number (Z.abs z) with
    | None => if (z <? 0)%Z then "-Infinity" else "Infinity"
    | Some d => if (z <? 0)%Z then "-" ++ print_number d else print_number d
    end.

(** [String(v)], also the coercion of template literals and of
    [localStorage.setItem]. *)
Fixpoint toString (v : jsval) : string :=
  match v with
  | JUndefined => "undefined"
  | JNull => "null"
  | JBool true => "true"
  | JBool false => "false"
  | JNum z => number_to_string z
  | JStr s => s
  | JArr items =>
      (fix join (l : list jsval) : string :=
         match l with
         | [] => EmptyString
         | x :: rest =>
             let here :=
               match x with
               | JUndefined | JNull => EmptyString
               | _ => toString x
               end in
             match rest with
             | [] => here
             | _ :: _ => here ++ "," ++ join rest
             end
         end) items
  | JObj _ => "[object Object]"
  end.

(** [v === s] for a string literal [s]. *)
Definition strict_eq_str (v : jsval) (s : string) : bool :=
  match v with
  | JStr t => String.eqb t s
  | _ => false
  end.

(** SameValueZero, the comparison of [Array.prototype.includes]: primitives
    by value; two object or array values met here are never the same
    reference. *)
Definition same_value_zero (a b : jsval) : bool :=
  match a, b with
  | JUndefined, JUndefined => true
  | JNull, JNull => true
  | JBool x, JBool y => Bool.eqb x y
  | JNum x, JNum y => (x =? y)%Z
  | JStr x, JStr y => String.eqb x y
  | _, _ => false
  end.

Definition includes (l : list jsval) (v : jsval) : bool :=
  existsb (same_value_zero v) l.

(** A settled promise. *)
Inductive settled (A : Type) : Type :=
| Fulfilled (a : A)
| Rejected (err : jsval).
Arguments Fulfilled {A} a.
Arguments Rejected {A} err.

End JS.
Import JS.

(** ** Session store of the Material UI client ([state/AuthContext.jsx])

    The older client's store is this one without the vehicle number.

    [JSON.parse] and [JSON.stringify] are primitives of the platform and are
    taken as parameters: [JSON_parse] answers [None] where [JSON.parse]
    throws a [SyntaxError], and [JSON_stringify] gives the text that
    [localStorage.setItem] ends up storing.

    The setters called by one handler or one effect are applied together,
    in one render (React 18 batches them), so a state is what the cells
    hold between two handlers. *)
Module AuthStore.

Definition STORAGE_KEY : string := "tv_auth".

(** [localStorage.getItem]: [null] for a missing key. *)
Definition getItem (k : string) (ls : gmap string string) : jsval :=
  match ls !! k with
  | Some s => JStr s
  | None => JNull
  end.

(** [useState] cells of [AuthProvider]. *)
Record state : Type := {
  accessToken : jsval;
  user : jsval;
  vehicleNumber : jsval
}.

Definition initial : state :=
  {| accessToken := JNull; user := JNull; vehicleNumber := JStr EmptyString |}.

(** What lives outside React: the browser's storage and the token held by
    the [ApiClient] singleton. *)
Record env : Type := {
  localStorage : gmap string string;
  api_accessToken : jsval
}.

(** The context value handed to [useAuth] callers. *)
Record auth_value : Type := {
  isAuthenticated : bool;
  role : jsval
}.

Definition value (s : state) : auth_value :=
  {| isAuthenticated := truthy (js_and (accessToken s) (user s));
     role := js_or (get (user s) "role") (JStr "public") |}.

Record login_opts : Type := { opt_vehicleNumber : jsval }.

(** The default [opts = {}]. *)
Definition no_opts : login_opts := {| opt_vehicleNumber := JUndefined |}.

(** [login]: a [TypeError] ([None]) when [payload] is [null] or
    [undefined], before any setter ran. *)
Definition login (payload : jsval) (opts : login_opts) (s : state) : option state :=
  match member payload "access_token", member payload "user" with
  | Some tok, Some usr =>
      Some {| accessToken := tok;
              user := usr;
              vehicleNumber :=
                if truthy (opt_vehicleNumber opts) then opt_vehicleNumber opts
                else vehicleNumber s |}
  | _, _ => None
  end.

Definition logout (_ : state) : state :=
  {| accessToken := JNull; user := JNull; vehicleNumber := JStr EmptyString |}.

Section WithJSON.
Variable JSON_parse : string -> option jsval.
Variable JSON_stringify : jsval -> string.

Definition readStoredAuth (ls : gmap string string) : jsval :=
  let raw := getItem STORAGE_KEY ls in
  if negb (truthy raw) then JNull
  else match JSON_parse (toString raw) with
       | Some v => v
       | None => JNull
       end.

Definition writeStoredAuth (data : jsval) (ls : gmap string string) : gmap string string :=
  if negb (truthy data) then delete STORAGE_KEY ls
  else <[STORAGE_KEY := JSON_stringify data]> ls.

(** First effect (no dependencies): the state updates it queues. *)
Definition restore_effect (ls : gmap string string) (s : state) : state :=
  let stored := readStoredAuth ls in
  if truthy (js_and (get stored "accessToken") (get stored "user")) then
    {| accessToken := get stored "accessToken";
       user := get stored "user";
       vehicleNumber := js_or (get stored "vehicleNumber") (JStr EmptyString) |}
  else s.

Definition stored_record (s : state) : jsval :=
  JObj [("accessToken", accessToken s); ("user", user s);
        ("vehicleNumber", vehicleNumber s)].

(** Second effect, on [accessToken, user, vehicleNumber]. *)
Definition persist_effect (s : state) (ls : gmap string string) : gmap string string :=
  if truthy (js_and (accessToken s) (user s)) then writeStoredAuth (stored_record s) ls
  else writeStoredAuth JNull ls.

(** Third effect, on [accessToken]: [api.setToken(accessToken || null)]. *)
Definition token_effect (s : state) : jsval := js_or (accessToken s) JNull.

(** The persisting and the token effect of one commit.  React skips an
    effect whose dependencies did not change; both are functions of the
    state alone, so running them again leaves the same storage and token. *)
Definition commit (s : state) (e : env) : env :=
  {| localStorage := persist_effect s (localStorage e);
     api_accessToken := token_effect s |}.

(** Mounting [AuthProvider] in a fresh process: the three effects run in
    order against the first render, whose state is [initial]; the updates
    queued by the first effect are then rendered and committed. *)
Definition mount (ls : gmap string string) : state * env :=
  let s1 := restore_effect ls initial in
  let e1 := commit initial {| localStorage := ls; api_accessToken := JNull |} in
  (s1, commit s1 e1).

Inductive op : Type :=
| Login (payload : jsval) (opts : login_opts)
| Logout
| Reload.

Definition step (o : op) (p : state * env) : state * env :=
  let (s, e) := p in
  match o with
  | Login payload opts =>
      match login payload opts s with
      | Some s' => (s', commit s' e)
      | None => (s, e)
      end
  | Logout => let s' := logout s in (s', commit s' e)
  | Reload => mount (localStorage e)
  end.

(** A browsing history: the page is opened on some storage, then used. *)
Definition run (ops : list op) (ls : gmap string string) : state * env :=
  fold_left (fun p o => step o p) ops (mount ls).

(** *** Vocabulary of the session claims *)

(** A stored text that does not yield a session: it does not parse, or
    what it parses to lacks a credential or an identity. *)
Definition malformed (raw : string) : Prop :=
  match JSON_parse raw with
  | None => True
  | Some v =>
      truthy (get v "accessToken") = false \/ truthy (get v "user") = false
  end.

End WithJSON.

(** A response of the authentication endpoints, which carries a credential
    and an identity. *)
Definition well_formed (o : op) : Prop :=
  match o with
  | Login payload _ =>
      truthy (get payload "access_token") = true
      /\ truthy (get payload "user") = true
  | Logout | Reload => True
  end.

(** Credential and identity are both there or both missing. *)
Definition together (s : state) : Prop :=
  truthy (accessToken s) = truthy (user s).

(** The vehicle number of a session is a non-empty value or the empty
    string, never another falsy value. *)
Definition vehicle_kept (s : state) : Prop :=
  js_or (vehicleNumber s) (JStr EmptyString) = vehicleNumber s.

End AuthStore.

(** ** Session store of the SPA ([contexts/AuthContext.jsx])

    The identity is the [user] cell; the credential is the bearer header
    installed on the shared axios instance, mirrored in [localStorage]. *)
Module SpaAuth.

Record state : Type := {
  user : jsval;
  loading : bool
}.

Definition initial : state := {| user := JNull; loading := true |}.

Record env : Type := {
  localStorage : gmap string string;
  (** [api.defaults.headers.common['Authorization']] *)
  authorization : option string
}.

(** The object the async [login] and [register] resolve to. *)
Record auth_result : Type := {
  success : bool;
  error : jsval
}.

Definition getItem (k : string) (ls : gmap string string) : jsval :=
  match ls !! k with
  | Some s => JStr s
  | None => JNull
  end.

Definition purge (ls : gmap string string) : gmap string string :=
  delete "user" (delete "refresh_token" (delete "access_token" ls)).

Definition logout (p : state * env) : state * env :=
  let (s, e) := p in
  ({| user := JNull; loading := loading s |},
   {| localStorage := purge (localStorage e); authorization := None |}).

Section WithJSON.
Variable JSON_parse : string -> option jsval.
Variable JSON_stringify : jsval -> string.

(** The mount effect: [setUser] is applied to the parsed record, so a
    [SyntaxError] leaves both the cell and the header untouched. *)
Definition mount_effect (p : state * env) : state * env :=
  let (s, e) := p in
  let token := getItem "access_token" (localStorage e) in
  let userData := getItem "user" (localStorage e) in
  if truthy (js_and token userData) then
    match JSON_parse (toString userData) with
    | Some u =>
        ({| user := u; loading := false |},
         {| localStorage := localStorage e;
            authorization := Some ("Bearer " ++ toString token) |})
    | None =>
        ({| user := user s; loading := false |},
         {| localStorage := purge (localStorage e);
            authorization := authorization e |})
    end
  else ({| user := user s; loading := false |}, e).

(** The body shared by [login] and [register] once [api.post] settled with
    [response], an axios response or the error of a rejection.
    Destructuring [response.data] throws on [null] and [undefined], which
    the surrounding [catch] turns into a failure whose message is
    [fallback].  The [catch] reads [error.response] itself, which throws
    when something that is no object was thrown at it. *)
Definition establish (fallback : string) (response : settled jsval)
    (p : state * env) : settled auth_result * (state * env) :=
  let (s, e) := p in
  let failed (err : jsval) :=
    match member err "response" with
    | None => (Rejected (JStr "TypeError"), p)
    | Some r =>
        (Fulfilled {| success := false;
                      error := js_or (get (get r "data") "message")
                                     (JStr fallback) |}, p)
    end in
  match response with
  | Rejected err => failed err
  | Fulfilled res =>
      match member (get res "data") "user" with
      | None => failed (JObj [("name", JStr "TypeError")])
      | Some userData =>
          let access_token := get (get res "data") "access_token" in
          let refresh_token := get (get res "data") "refresh_token" in
          let ls := <["user" := JSON_stringify userData]>
                      (<["refresh_token" := toString refresh_token]>
                         (<["access_token" := toString access_token]>
                            (localStorage e))) in
          (Fulfilled {| success := true; error := JUndefined |},
           ({| user := userData; loading := loading s |},
            {| localStorage := ls;
               authorization := Some ("Bearer " ++ toString access_token) |}))
      end
  end.

Definition login (response : settled jsval) (p : state * env) :=
  establish "Login failed" response p.

Definition register (response : settled jsval) (p : state * env) :=
  establish "Registration failed" response p.

(** Mounting [AuthProvider] in a fresh process: the axios instance is new,
    the storage is whatever the browser kept. *)
Definition mount (ls : gmap string string) : state * env :=
  mount_effect (initial, {| localStorage := ls; authorization := None |}).

Inductive op : Type :=
| Login (response : settled jsval)
| Register (response : settled jsval)
| Logout
| Reload.

Definition step (o : op) (p : state * env) : state * env :=
  match o with
  | Login response => snd (login response p)
  | Register response => snd (register response p)
  | Logout => logout p
  | Reload => mount (localStorage (snd p))
  end.

Definition run (ops : list op) (ls : gmap string string) : state * env :=
  fold_left (fun p o => step o p) ops (mount ls).

(** *** Vocabulary of the session claims *)

(** A storage that does not yield a session: the credential or the
    identity entry is missing or empty, or the identity does not parse. *)
Definition malformed (ls : gmap string string) : Prop :=
  truthy (js_and (getItem "access_token" ls) (getItem "user" ls)) = false
  \/ JSON_parse (toString (getItem "user" ls)) = None.

(** The texts a template literal and [localStorage.setItem] make of a
    token that is not there. *)
Definition no_token (t : string) : bool :=
  String.eqb t EmptyString || String.eqb t "undefined" || String.eqb t "null".

(** What is stored under ["user"] never reads back as no identity, and
    what is stored under ["access_token"] is the text of a token. *)
Definition storage_ok (ls : gmap string string) : Prop :=
  (forall raw j, ls !! "user" = Some raw -> JSON_parse raw = Some j -> truthy j = true)
  /\ (forall t, ls !! "access_token" = Some t -> no_token t = false).

(** A response of the authentication endpoints: a rejection, or a body
    with a credential that is there and prints as a token, and an identity
    that is there and is still there when its stored text is read back. *)
Definition well_formed_response (response : settled jsval) : Prop :=
  match response with
  | Rejected _ => True
  | Fulfilled res =>
      truthy (get (get res "data") "access_token") = true
      /\ no_token (toString (get (get res "data") "access_token")) = false
      /\ truthy (get (get res "data") "user") = true
      /\ forall j,
           JSON_parse (JSON_stringify (get (get res "data") "user")) = Some j ->
           truthy j = true
  end.

Definition well_formed (o : op) : Prop :=
  match o with
  | Login response | Register response => well_formed_response response
  | Logout | Reload => True
  end.

End WithJSON.

(** What follows the first [n] characters of a text. *)
Fixpoint drop_chars (n : nat) (t : string) : string :=
  match n, t with
  | S n', String _ rest => drop_chars n' rest
  | _, _ => t
  end.

(** The credential of the SPA is the token its bearer header carries, the
    text after ["Bearer "].  A header made from a token that was not there
    reads [Bearer undefined] and carries none. *)
Definition credential (e : env) : option string :=
  match authorization e with
  | Some h =>
      let t := drop_chars 7 h in
      if no_token t then None else Some t
  | None => None
  end.

(** Credential and identity are both there or both missing. *)
Definition together (p : state * env) : Prop :=
  truthy (user (fst p)) = true <-> is_Some (credential (snd p)).

End SpaAuth.

(** ** Authorization guards *)
Module Guard.

(** What a guard renders. *)
Inductive element : Type :=
| Children
| Navigate (to : string)
| LoadingScreen.

(** [components/ProtectedRoute.jsx], the same text in both Material UI
    clients; [allowedRoles] is [None] when the prop is not passed. *)
Definition ProtectedRoute (auth : AuthStore.auth_value)
    (allowedRoles : option (list jsval)) : element :=
  if negb (AuthStore.isAuthenticated auth) then Navigate "/login"
  else if match allowedRoles with
          | Some roles => negb (includes roles (AuthStore.role auth))
          | None => false
          end
       then Navigate "/dashboard"
       else Children.

(** [ProtectedRoute] of the SPA's [App.jsx], with its default
    [allowedRoles = []]. *)
Definition SpaProtectedRoute (auth : SpaAuth.state)
    (allowedRoles : option (list jsval)) : element :=
  let roles := match allowedRoles with Some l => l | None => [] end in
  if SpaAuth.loading auth then LoadingScreen
  else if negb (truthy (SpaAuth.user auth)) then Navigate "/login"
  else if (0 <? length roles)%nat
          && negb (includes roles (get (SpaAuth.user auth) "role"))
       then Navigate "/"
       else Children.

(** The three outcomes of the specification's [decide]. *)
Definition Allow : element := Children.
Definition RedirectLogin : element := Navigate "/login".
Definition RedirectHome : element := Navigate "/dashboard".
Definition SpaRedirectHome : element := Navigate "/".

End Guard.

(** ** The vehicle owner's dashboard ([pages/UserDashboard.jsx]) *)
Module Dashboard.

Record violation : Type := {
  v_id : jsval;
  v_vehicle_number : jsval;
  v_violation_type : jsval
}.

Record challan : Type := {
  c_id : jsval;
  c_violation_id : jsval;
  c_vehicle_number : jsval;
  c_violation_type : jsval;
  c_fine_amount : jsval;
  c_status : jsval
}.

(** Calls of the [ApiClient] that the dashboard makes. *)
Inductive request : Type :=
| createChallanFromViolation (violation_id : jsval)
| listChallans
| payChallan (challanId : jsval).

(** What an observer of the page sees, in order: a request leaving, the
    same request settling, a line on the console. *)
Inductive event : Type :=
| Sent (r : request)
| Settled (r : request) (ok : bool)
| ConsoleError (msg : string) (err : jsval).

Section WithBackend.

(** The backend is a black box with a state of its own; each endpoint
    settles a request and moves that state. *)
Variable Server : Type.
Variable post_from_violation : jsval -> Server -> settled unit * Server.
Variable get_challans : Server -> settled (option (list challan)) * Server.
Variable post_pay : jsval -> Server -> settled unit * Server.

(** Everything the component's closures can change. *)
Record world : Type := {
  server : Server;
  hasSyncedRef : bool;
  challans_cell : list challan;
  loading_cell : bool;
  error_cell : jsval;
  actionError_cell : jsval;
  trace : list event
}.

(** Asynchronous code: it runs against the world and either completes or
    throws; what it changed before throwing stays changed. *)
Definition M (A : Type) : Type := world -> settled A * world.

Definition ret {A : Type} (a : A) : M A := fun w => (Fulfilled a, w).

Definition bind {A B : Type} (m : M A) (k : A -> M B) : M B :=
  fun w =>
    match m w with
    | (Fulfilled a, w') => k a w'
    | (Rejected err, w') => (Rejected err, w')
    end.

Definition try_catch {A : Type} (body : M A) (handler : jsval -> M A) : M A :=
  fun w =>
    match body w with
    | (Fulfilled a, w') => (Fulfilled a, w')
    | (Rejected err, w') => handler err w'
    end.

Definition try_finally {A : Type} (body : M A) (final : M unit) : M A :=
  fun w =>
    let (r, w') := body w in
    match final w' with
    | (Fulfilled _, w'') => (r, w'')
    | (Rejected err, w'') => (Rejected err, w'')
    end.

Notation "x <- m ;; k" := (bind m (fun x => k))
  (at level 100, m at next level, right associativity).
Notation "m ;;; k" := (bind m (fun _ => k))
  (at level 100, right associativity).

(** [for (const x of l) body(x)] with an awaiting body. *)
Fixpoint for_of {A : Type} (l : list A) (body : A -> M unit) : M unit :=
  match l with
  | [] => ret tt
  | x :: rest => body x ;;; for_of rest body
  end.

Definition log (ev : event) (w : world) : world :=
  {| server := server w; hasSyncedRef := hasSyncedRef w;
     challans_cell := challans_cell w; loading_cell := loading_cell w;
     error_cell := error_cell w; actionError_cell := actionError_cell w;
     trace := trace w ++ [ev] |}.

Definition with_server (srv : Server) (w : world) : world :=
  {| server := srv; hasSyncedRef := hasSyncedRef w;
     challans_cell := challans_cell w; loading_cell := loading_cell w;
     error_cell := error_cell w; actionError_cell := actionError_cell w;
     trace := trace w |}.

Definition is_fulfilled {A : Type} (r : settled A) : bool :=
  match r with Fulfilled _ => true | Rejected _ => false end.

(** [await api.call(...)]: the request leaves, the caller is suspended
    until it settles. *)
Definition await {A : Type} (r : request)
    (endpoint : Server -> settled A * Server) : M A :=
  fun w =>
    let w1 := log (Sent r) w in
    let (res, srv) := endpoint (server w1) in
    (res, log (Settled r (is_fulfilled res)) (with_server srv w1)).

Definition set_hasSynced (b : bool) : M unit :=
  fun w =>
    (Fulfilled tt,
     {| server := server w; hasSyncedRef := b;
        challans_cell := challans_cell w; loading_cell := loading_cell w;
        error_cell := error_cell w; actionError_cell := actionError_cell w;
        trace := trace w |}).

Definition setChallans (l : list challan) : M unit :=
  fun w =>
    (Fulfilled tt,
     {| server := server w; hasSyncedRef := hasSyncedRef w;
        challans_cell := l; loading_cell := loading_cell w;
        error_cell := error_cell w; actionError_cell := actionError_cell w;
        trace := trace w |}).

Definition setLoading (b : bool) : M unit :=
  fun w =>
    (Fulfilled tt,
     {| server := server w; hasSyncedRef := hasSyncedRef w;
        challans_cell := challans_cell w; loading_cell := b;
        error_cell := error_cell w; actionError_cell := actionError_cell w;
        trace := trace w |}).

Definition setError (v : jsval) : M unit :=
  fun w =>
    (Fulfilled tt,
     {| server := server w; hasSyncedRef := hasSyncedRef w;
        challans_cell := challans_cell w; loading_cell := loading_cell w;
        error_cell := v; actionError_cell := actionError_cell w;
        trace := trace w |}).

Definition setActionError (v : jsval) : M unit :=
  fun w =>
    (Fulfilled tt,
     {| server := server w; hasSyncedRef := hasSyncedRef w;
        challans_cell := challans_cell w; loading_cell := loading_cell w;
        error_cell := error_cell w; actionError_cell := v;
        trace := trace w |}).

Definition console_error (msg : string) (err : jsval) : M unit :=
  fun w => (Fulfilled tt, log (ConsoleError msg err) w).

(** [err?.response?.data?.message || err?.response?.data?.detail || fallback] *)
Definition error_message (err : jsval) (fallback : string) : jsval :=
  js_or (get (get (get err "response") "data") "message")
        (js_or (get (get (get err "response") "data") "detail") (JStr fallback)).

Definition loadChallans : M unit :=
  try_catch
    (res <- await listChallans get_challans ;;
     setChallans (match res with Some l => l | None => [] end))
    (fun err => setError (error_message err "Failed to load challans")).

(** The reconciliation pass; [vehicleNumber], [challans] and [violations]
    are the values captured by the render that created the closure. *)
Definition syncChallansFromViolations (vehicleNumber : jsval)
    (challans : list challan) (violations : list violation) : M unit :=
  fun w =>
    if negb (truthy vehicleNumber) || hasSyncedRef w then (Fulfilled tt, w)
    else
      let existingViolationIds : gset string :=
        list_to_set (map (fun c => toString (c_violation_id c)) challans) in
      let toCreate :=
        List.filter (fun v => negb (bool_decide (toString (v_id v) ∈ existingViolationIds)))
               violations in
      if (length toCreate =? 0)%nat then (Fulfilled tt, w)
      else
        try_catch
          (for_of toCreate
             (fun v => await (createChallanFromViolation (v_id v))
                             (post_from_violation (v_id v))) ;;;
           set_hasSynced true ;;;
           loadChallans)
          (fun err =>
             console_error "Failed to auto-create challans from violations" err)
          w.

(** The effect on [vehicleNumber, violations, challans] that starts a pass.
    The effect on [vehicleNumber] alone, which runs before it and clears
    the flag, is [vehicle_effect] further down. *)
Definition sync_effect (vehicleNumber : jsval)
    (challans : list challan) (violations : list violation) : M unit :=
  fun w =>
    if negb (truthy vehicleNumber) || hasSyncedRef w
       || (length violations =? 0)%nat
    then (Fulfilled tt, w)
    else syncChallansFromViolations vehicleNumber challans violations w.

Definition handlePay (challanId : jsval) : M unit :=
  setActionError (JStr EmptyString) ;;;
  try_catch
    (await (payChallan challanId) (post_pay challanId) ;;;
     loadChallans)
    (fun err => setActionError (error_message err "Failed to process payment")).

(** The [Button] of a challan card.  A disabled button dispatches no click. *)
Record button : Type := {
  disabled : bool;
  onClick : M unit;
  label : string
}.

Definition pay_button (c : challan) : button :=
  {| disabled := strict_eq_str (c_status c) "paid";
     onClick := handlePay (c_id c);
     label := if strict_eq_str (c_status c) "paid" then "Paid" else "Pay Challan" |}.

(** [challans.map(...)]: one pay control per displayed challan. *)
Definition render_pay_controls (challans : list challan) : list button :=
  map pay_button challans.

Definition click (b : button) : M unit :=
  if disabled b then ret tt else onClick b.

(** The user clicks the control of the [i]-th card, if there is one. *)
Definition click_card (challans : list challan) (i : nat) : M unit :=
  match render_pay_controls challans !! i with
  | Some b => click b
  | None => ret tt
  end.

(** *** The older client ([frontend/src/pages/UserDashboard.jsx])

    Same card and same [handlePay]; its [loadChallans] also drives the
    loading indicator and clears the banner. *)
Definition legacy_loadChallans : M unit :=
  setLoading true ;;;
  setError (JStr EmptyString) ;;;
  try_finally
    (try_catch
       (res <- await listChallans get_challans ;;
        setChallans (match res with Some l => l | None => [] end))
       (fun err => setError (error_message err "Failed to load challans")))
    (setLoading false).

Definition legacy_handlePay (challanId : jsval) : M unit :=
  setActionError (JStr EmptyString) ;;;
  try_catch
    (await (payChallan challanId) (post_pay challanId) ;;;
     legacy_loadChallans)
    (fun err => setActionError (error_message err "Failed to process payment")).

Definition legacy_pay_button (c : challan) : button :=
  {| disabled := strict_eq_str (c_status c) "paid";
     onClick := legacy_handlePay (c_id c);
     label := if strict_eq_str (c_status c) "paid" then "Paid" else "Pay Challan" |}.

Definition legacy_click_card (challans : list challan) (i : nat) : M unit :=
  match map legacy_pay_button challans !! i with
  | Some b => click b
  | None => ret tt
  end.

(** *** Vocabulary of the reconciliation claims *)

(** The line the pass leaves on the console when it gives up. *)
Definition sync_message : string :=
  "Failed to auto-create challans from violations".

(** A violation is covered when some challan's [violation_id] prints like
    its [id]. *)
Definition covered (challans : list challan) (v : violation) : bool :=
  existsb (fun c => String.eqb (toString (c_violation_id c)) (toString (v_id v)))
          challans.

(** The violations without a challan, in arrival order. *)
Definition missing (challans : list challan) (violations : list violation)
    : list violation :=
  List.filter (fun v => negb (covered challans v)) violations.

(** The backend's answers to creation requests made one after the other:
    the first rejection, if any, and the state it is left in. *)
Fixpoint create_each (ids : list jsval) (srv : Server) : settled unit * Server :=
  match ids with
  | [] => (Fulfilled tt, srv)
  | i :: rest =>
      match post_from_violation i srv with
      | (Fulfilled _, srv') => create_each rest srv'
      | (Rejected err, srv') => (Rejected err, srv')
      end
  end.

(** The creation requests that leave when [ids] are tried in turn and the
    loop is abandoned at the first rejection. *)
Fixpoint issued (ids : list jsval) (srv : Server) : list jsval :=
  match ids with
  | [] => []
  | i :: rest =>
      match post_from_violation i srv with
      | (Fulfilled _, srv') => i :: issued rest srv'
      | (Rejected _, _) => [i]
      end
  end.

(** What an observer sees of those requests. *)
Fixpoint creation_events (ids : list jsval) (srv : Server) : list event :=
  match ids with
  | [] => []
  | i :: rest =>
      match post_from_violation i srv with
      | (Fulfilled _, srv') =>
          Sent (createChallanFromViolation i)
            :: Settled (createChallanFromViolation i) true
            :: creation_events rest srv'
      | (Rejected _, _) =>
          [Sent (createChallanFromViolation i);
           Settled (createChallanFromViolation i) false]
      end
  end.

(** The violation ids of the creation requests of a trace, in order. *)
Fixpoint creations (t : list event) : list jsval :=
  match t with
  | [] => []
  | Sent (createChallanFromViolation i) :: rest => i :: creations rest
  | _ :: rest => creations rest
  end.

(** The challan ids of the pay requests of a trace, in order. *)
Fixpoint pays (t : list event) : list jsval :=
  match t with
  | [] => []
  | Sent (payChallan i) :: rest => i :: pays rest
  | _ :: rest => pays rest
  end.

(** The number of list refreshes of a trace. *)
Fixpoint refreshes (t : list event) : nat :=
  match t with
  | [] => 0
  | Sent listChallans :: rest => S (refreshes rest)
  | _ :: rest => refreshes rest
  end.

(** No two requests are in flight together: whatever leaves has settled
    before anything else happens. *)
Fixpoint sequential (t : list event) : Prop :=
  match t with
  | [] => True
  | Sent r :: Settled r' _ :: rest => r = r' /\ sequential rest
  | ConsoleError _ _ :: rest => sequential rest
  | _ => False
  end.

End WithBackend.
End Dashboard.

(** ** A backend to run the dashboard against

    It keeps the challans it issued and refuses the violations listed in
    [refused]. *)
Module DemoBackend.
Import Dashboard.

Record server : Type := {
  refused : list jsval;
  issued_challans : list challan
}.

Definition challan_for (violation_id : jsval) (n : nat) : challan :=
  {| c_id := JNum (Z.of_nat n);
     c_violation_id := violation_id;
     c_vehicle_number := JStr "KA01AB1234";
     c_violation_type := JStr "no_helmet";
     c_fine_amount := JNum 500;
     c_status := JStr "unpaid" |}.

(** The axios error of a refused request. *)
Definition server_error : jsval :=
  JObj [("response", JObj [("status", JNum 500)])].

Definition post_from_violation (violation_id : jsval) (srv : server)
    : settled unit * server :=
  if includes (refused srv) violation_id
  then (Rejected server_error, srv)
  else (Fulfilled tt,
        {| refused := refused srv;
           issued_challans :=
             issued_challans srv
               ++ [challan_for violation_id (S (length (issued_challans srv)))] |}).

Definition get_challans (srv : server) : settled (option (list challan)) * server :=
  (Fulfilled (Some (issued_challans srv)), srv).

Definition mark_paid (challanId : jsval) (c : challan) : challan :=
  if same_value_zero (c_id c) challanId
  then {| c_id := c_id c; c_violation_id := c_violation_id c;
          c_vehicle_number := c_vehicle_number c;
          c_violation_type := c_violation_type c;
          c_fine_amount := c_fine_amount c; c_status := JStr "paid" |}
  else c.

Definition post_pay (challanId : jsval) (srv : server) : settled unit * server :=
  (Fulfilled tt,
   {| refused := refused srv;
      issued_challans := map (mark_paid challanId) (issued_challans srv) |}).

(** A freshly mounted dashboard talking to [srv]. *)
Definition fresh (srv : server) : world server :=
  {| Dashboard.server := srv; hasSyncedRef := false; challans_cell := [];
     loading_cell := true; error_cell := JStr EmptyString;
     actionError_cell := JStr EmptyString; trace := [] |}.

Definition violation_of (id : jsval) : violation :=
  {| v_id := id; v_vehicle_number := JStr "KA01AB1234";
     v_violation_type := JStr "no_helmet" |}.

Definition refusing (ids : list jsval) : server :=
  {| refused := ids; issued_challans := [] |}.

Definition accepting : server := refusing [].

Definition vehicle : jsval := JStr "KA01AB1234".

(** The pass of a dashboard wired to this backend. *)
Definition sync : jsval -> list challan -> list violation -> M server unit :=
  syncChallansFromViolations server post_from_violation get_challans.

End DemoBackend.

(** ** A small JSON codec

    A printer and a fuelled recursive-descent reader for the JSON texts the
    stores exchange with [localStorage] (no white space, no exponent, the
    two escapes a printed string needs).  It instantiates the platform's
    [JSON.stringify] and [JSON.parse] in the concrete runs below. *)
Module MiniJSON.

Local Open Scope char_scope.

Definition dquote : ascii := "034".
Definition backslash : ascii := "092".

Fixpoint escape (s : string) : string :=
  match s with
  | EmptyString => EmptyString
  | String c rest =>
      if Ascii.eqb c dquote || Ascii.eqb c backslash
      then String backslash (String c (escape rest))
      else String c (escape rest)
  end.

Definition quote (s : string) : string :=
  String dquote (escape s ++ String dquote EmptyString).

Fixpoint stringify (v : jsval) : string :=
  match v with
  | JUndefined => "undefined"
  | JNull => "null"
  | JBool true => "true"
  | JBool false => "false"
  | JNum z => NilZero.string_of_int (Z.to_int z)
  | JStr s => quote s
  | JArr items =>
      let fix elems (l : list jsval) : string :=
        match l with
        | [] => EmptyString
        | x :: rest =>
            let here := match x with JUndefined => "null"%string | _ => stringify x end in
            match rest with
            | [] => here
            | _ :: _ => (here ++ "," ++ elems rest)%string
            end
        end in
      ("[" ++ elems items ++ "]")%string
  | JObj fields =>
      let fix members (first : bool) (l : list (string * jsval)) : string :=
        match l with
        | [] => EmptyString
        | (_, JUndefined) :: rest => members first rest
        | (k, x) :: rest =>
            ((if first then EmptyString else ",") ++ quote k ++ ":" ++ stringify x
               ++ members false rest)%string
        end in
      ("{" ++ members true fields ++ "}")%string
  end.

Definition is_digit (c : ascii) : bool :=
  (48 <=? nat_of_ascii c)%nat && (nat_of_ascii c <=? 57)%nat.

Fixpoint read_digits (acc : Z) (s : string) : Z * string :=
  match s with
  | String c rest =>
      if is_digit c
      then read_digits (10 * acc + Z.of_nat (nat_of_ascii c - 48)) rest
      else (acc, s)
  | EmptyString => (acc, s)
  end.

Definition read_number (s : string) : option (Z * string) :=
  match s with
  | String "-" (String c rest) =>
      if is_digit c
      then let (z, tail) := read_digits 0 (String c rest) in Some ((- z)%Z, tail)
      else None
  | String c _ =>
      if is_digit c then Some (read_digits 0 s) else None
  | EmptyString => None
  end.

(** The characters of a string literal after its opening quote. *)
Fixpoint read_string (s : string) : option (string * string) :=
  match s with
  | EmptyString => None
  | String c rest =>
      if Ascii.eqb c dquote then Some (EmptyString, rest)
      else if Ascii.eqb c backslash then
        match rest with
        | String d rest' =>
            if Ascii.eqb d dquote || Ascii.eqb d backslash then
              match read_string rest' with
              | Some (body, tail) => Some (String d body, tail)
              | None => None
              end
            else None
        | EmptyString => None
        end
      else
        match read_string rest with
        | Some (body, tail) => Some (String c body, tail)
        | None => None
        end
  end.

Definition strip (p s : string) : option string :=
  if String.prefix p s
  then Some (String.substring (String.length p) (String.length s - String.length p) s)
  else None.

Fixpoint read_value (fuel : nat) (s : string) : option (jsval * string) :=
  match fuel with
  | O => None
  | S fuel' =>
      match s with
      | EmptyString => None
      | String c rest =>
          if Ascii.eqb c "n" then option_map (pair JNull) (strip "null" s)
          else if Ascii.eqb c "t" then option_map (pair (JBool true)) (strip "true" s)
          else if Ascii.eqb c "f" then option_map (pair (JBool false)) (strip "false" s)
          else if Ascii.eqb c dquote then
            match read_string rest with
            | Some (body, tail) => Some (JStr body, tail)
            | None => None
            end
          else if Ascii.eqb c "[" then
            match rest with
            | String "]" tail => Some (JArr [], tail)
            | _ => match read_items fuel' rest with
                   | Some (items, tail) => Some (JArr items, tail)
                   | None => None
                   end
            end
          else if Ascii.eqb c "{" then
            match rest with
            | String "}" tail => Some (JObj [], tail)
            | _ => match read_members fuel' rest with
                   | Some (fields, tail) => Some (JObj fields, tail)
                   | None => None
                   end
            end
          else
            match read_number s with
            | Some (z, tail) => Some (JNum z, tail)
            | None => None
            end
      end
  end
with read_items (fuel : nat) (s : string) : option (list jsval * string) :=
  match fuel with
  | O => None
  | S fuel' =>
      match read_value fuel' s with
      | Some (x, String "," tail) =>
          match read_items fuel' tail with
          | Some (xs, tail') => Some (x :: xs, tail')
          | None => None
          end
      | Some (x, String "]" tail) => Some ([x], tail)
      | _ => None
      end
  end
with read_members (fuel : nat) (s : string) : option (list (string * jsval) * string) :=
  match fuel with
  | O => None
  | S fuel' =>
      match s with
      | String c rest =>
          if Ascii.eqb c dquote then
            match read_string rest with
            | Some (k, String ":" tail) =>
                match read_value fuel' tail with
                | Some (x, String "," tail') =>
                    match read_members fuel' tail' with
                    | Some (fs, tail'') => Some ((k, x) :: fs, tail'')
                    | None => None
                    end
                | Some (x, String "}" tail') => Some ([(k, x)], tail')
                | _ => None
                end
            | _ => None
            end
          else None
      | EmptyString => None
      end
  end.

(** [None] is the [SyntaxError]. *)
Definition parse (s : string) : option jsval :=
  match read_value (2 * String.length s + 2) s with
  | Some (v, EmptyString) => Some v
  | _ => None
  end.

End MiniJSON.

(** ** Sample data for the concrete runs *)
Module Samples.

Definition officer : jsval :=
  JObj [("id", JNum 1); ("name", JStr "Asha"); ("email", JStr "asha@example.org");
        ("role", JStr "officer")].

Definition owner : jsval :=
  JObj [("id", JNum 2); ("name", JStr "Ravi"); ("email", JStr "ravi@example.org");
        ("role", JStr "public")].

Definition signed_in_officer : AuthStore.state :=
  {| AuthStore.accessToken := JStr "jwt-1"; AuthStore.user := officer;
     AuthStore.vehicleNumber := JStr EmptyString |}.

Definition spa_signed_in_owner : SpaAuth.state :=
  {| SpaAuth.user := owner; SpaAuth.loading := false |}.

Definition spa_signed_out : SpaAuth.state :=
  {| SpaAuth.user := JNull; SpaAuth.loading := false |}.

(** The body of a successful [POST /auth/login]. *)
Definition login_body : jsval :=
  JObj [("user", owner); ("access_token", JStr "jwt-2");
        ("refresh_token", JStr "refresh-2")].

Definition with_vehicle : AuthStore.login_opts :=
  {| AuthStore.opt_vehicleNumber := JStr "KA01AB1234" |}.

(** The axios response around that body. *)
Definition login_response : settled jsval :=
  Fulfilled (JObj [("status", JNum 200); ("data", login_body)]).

(** A second account signs in on the same page without a vehicle number. *)
Definition officer_body : jsval :=
  JObj [("user", officer); ("access_token", JStr "jwt-1");
        ("refresh_token", JStr "refresh-1")].

Definition second_login : list AuthStore.op :=
  [AuthStore.Login login_body with_vehicle;
   AuthStore.Login officer_body AuthStore.no_opts].

(** Bodies that carry one half of a session. *)
Definition token_only : list AuthStore.op :=
  [AuthStore.Login (JObj [("access_token", JStr "jwt-2")]) AuthStore.no_opts].

Definition identity_only : list SpaAuth.op :=
  [SpaAuth.Login
     (Fulfilled (JObj [("status", JNum 200); ("data", JObj [("user", owner)])]))].

(** A stored session cut off in the middle. *)
Definition truncated : string :=
  String.substring 0 30 (MiniJSON.stringify (AuthStore.stored_record signed_in_officer)).

Definition truncated_storage : gmap string string :=
  <[AuthStore.STORAGE_KEY := truncated]> ∅.

(** SPA storages: an identity without a credential, and a credential with
    an identity cut off in the middle. *)
Definition spa_no_credential : gmap string string :=
  <["user" := MiniJSON.stringify owner]> ∅.

Definition spa_truncated_storage : gmap string string :=
  <["user" := String.substring 0 20 (MiniJSON.stringify owner)]>
    (<["access_token" := "jwt-2"]> ∅).

Definition v1 : Dashboard.violation := DemoBackend.violation_of (JStr "v1").
Definition v2 : Dashboard.violation := DemoBackend.violation_of (JStr "v2").
Definition v3 : Dashboard.violation := DemoBackend.violation_of (JStr "v3").

Definition paid_challan : Dashboard.challan :=
  DemoBackend.mark_paid (JNum 1) (DemoBackend.challan_for (JStr "v1") 1).

Definition unpaid_challan : Dashboard.challan :=
  DemoBackend.challan_for (JStr "v2") 2.

End Samples.

(** ** The API client ([utils/api.js]) *)
Module ApiClient.

(** An axios request configuration, as far as the interceptor looks at it;
    [headers] is [None] when the property is not there. *)
Record config : Type := {
  url : string;
  headers : option (list (string * jsval))
}.

(** [o[k] = x] on the own properties of an object: an existing key keeps
    its place, a new one goes last. *)
Fixpoint set_field (k : string) (x : jsval) (fs : list (string * jsval))
    : list (string * jsval) :=
  match fs with
  | [] => [(k, x)]
  | (k', v) :: rest =>
      if String.eqb k k' then (k', x) :: rest else (k', v) :: set_field k x rest
  end.

(** The request interceptor installed by the constructor, for a client
    whose [accessToken] field holds [accessToken]. *)
Definition interceptor (accessToken : jsval) (c : config) : config :=
  if truthy accessToken then
    {| url := url c;
       headers :=
         Some (set_field "Authorization" (JStr ("Bearer " ++ toString accessToken))
                 (match headers c with Some hs => hs | None => [] end)) |}
  else c.

(** The header [k] of a configuration, [undefined] when it is not set. *)
Definition header (k : string) (c : config) : jsval :=
  match headers c with
  | Some hs => assoc k hs
  | None => JUndefined
  end.

End ApiClient.

(** ** Routing ([App.jsx] of the Material UI client and of the SPA) *)
Module Routes.

(** What a route ends up showing. *)
Inductive view : Type :=
| Page (name : string)
| Redirect (to : string)
| Spinner.

(** A guard around [children]: the children are rendered only when the
    guard returns them. *)
Definition guarded (g : Guard.element) (children : view) : view :=
  match g with
  | Guard.Children => children
  | Guard.Navigate to => Redirect to
  | Guard.LoadingScreen => Spinner
  end.

(** The routes of the Material UI client. *)
Inductive route : Type :=
| Landing
| LoginRoute
| RegisterRoute
| Dashboard.

Definition DashboardSwitcher (auth : AuthStore.auth_value) : view :=
  if strict_eq_str (AuthStore.role auth) "officer" then
    guarded (Guard.ProtectedRoute auth (Some [JStr "officer"]))
            (Page "OfficialDashboard")
  else
    guarded (Guard.ProtectedRoute auth (Some [JStr "public"; JStr "officer"]))
            (Page "UserDashboard").

Definition App (r : route) (auth : AuthStore.auth_value) : view :=
  match r with
  | Landing => Page "LandingPage"
  | LoginRoute => Page "LoginPage"
  | RegisterRoute => Page "RegisterPage"
  | Dashboard => guarded (Guard.ProtectedRoute auth None) (DashboardSwitcher auth)
  end.

(** The route a [Navigate] of this client leads to. *)
Definition resolve (to : string) : option route :=
  if String.eqb to "/" then Some Landing
  else if String.eqb to "/login" then Some LoginRoute
  else if String.eqb to "/register" then Some RegisterRoute
  else if String.eqb to "/dashboard" then Some Dashboard
  else None.

(** The routes of the SPA. *)
Inductive spa_route : Type :=
| SpaLanding
| SpaLogin
| SpaRegister
| SpaUserDashboard
| SpaOfficerDashboard.

(** Where the SPA sends a signed-in user who opens the login or the
    registration page. *)
Definition dashboard_of (user : jsval) : string :=
  if strict_eq_str (get user "role") "officer"
  then "/officer/dashboard" else "/user/dashboard".

Definition AppRoutes (r : spa_route) (auth : SpaAuth.state) : view :=
  match r with
  | SpaLanding => Page "LandingPage"
  | SpaLogin =>
      if truthy (SpaAuth.user auth)
      then Redirect (dashboard_of (SpaAuth.user auth)) else Page "LoginPage"
  | SpaRegister =>
      if truthy (SpaAuth.user auth)
      then Redirect (dashboard_of (SpaAuth.user auth)) else Page "RegisterPage"
  | SpaUserDashboard =>
      guarded (Guard.SpaProtectedRoute auth (Some [JStr "public"]))
              (Page "UserDashboard")
  | SpaOfficerDashboard =>
      guarded (Guard.SpaProtectedRoute auth (Some [JStr "officer"]))
              (Page "OfficerDashboard")
  end.

Definition spa_resolve (to : string) : option spa_route :=
  if String.eqb to "/" then Some SpaLanding
  else if String.eqb to "/login" then Some SpaLogin
  else if String.eqb to "/register" then Some SpaRegister
  else if String.eqb to "/user/dashboard" then Some SpaUserDashboard
  else if String.eqb to "/officer/dashboard" then Some SpaOfficerDashboard
  else None.

(** Opening a route and following the redirects it answers with, at most
    [fuel] of them; [None] when a redirect is still pending or leads
    nowhere. *)
Fixpoint spa_settle (fuel : nat) (r : spa_route) (auth : SpaAuth.state)
    : option view :=
  match AppRoutes r auth with
  | Redirect to =>
      match fuel, spa_resolve to with
      | S fuel', Some r' => spa_settle fuel' r' auth
      | _, _ => None
      end
  | v => Some v
  end.

Fixpoint settle (fuel : nat) (r : route) (auth : AuthStore.auth_value)
    : option view :=
  match App r auth with
  | Redirect to =>
      match fuel, resolve to with
      | S fuel', Some r' => settle fuel' r' auth
      | _, _ => None
      end
  | v => Some v
  end.

End Routes.

(** ** The summary tiles of the dashboard ([stats] in [UserDashboard.jsx]) *)
Module DashboardStats.
Import Dashboard.

(** The counting tiles of [stats].  The two amount tiles are sums of
    [Number(c.fine_amount || 0)], floating-point sums of whatever [Number]
    makes of the fines; they are left out. *)
Record stats_value : Type := {
  total : nat;
  paid : nat;
  unpaid : nat
}.

Definition stats (challans : list challan) : stats_value :=
  let total := length challans in
  let paid :=
    length (List.filter (fun c => strict_eq_str (c_status c) "paid") challans) in
  {| total := total;
     paid := paid;
     unpaid := (total - paid)%nat |}.

End DashboardStats.

(** ** The login and registration pages of the Material UI client
    ([pages/LoginPage.jsx], [pages/RegisterPage.jsx]) *)
Module Pages.

(** Calls of the [ApiClient] that the two pages make. *)
Inductive call : Type :=
| api_login (payload : jsval)
| api_register (payload : jsval)
| api_validateOfficialKey (key : jsval).

Record login_form : Type := {
  lf_email : jsval;
  lf_password : jsval;
  lf_vehicleNumber : jsval;
  lf_error : jsval;
  lf_loading : bool
}.

Record register_form : Type := {
  rf_name : jsval;
  rf_email : jsval;
  rf_password : jsval;
  rf_vehicleNumber : jsval;
  rf_roleUI : jsval;
  rf_officialKey : jsval;
  rf_error : jsval;
  rf_loading : bool
}.

(** What a failed [login(res.data, ...)] throws. *)
Definition type_error : jsval := JObj [("name", JStr "TypeError")].

Section WithBackend.
Variable JSON_stringify : jsval -> string.
Variable Server : Type.
Variable post_login : jsval -> Server -> settled jsval * Server.
Variable post_register : jsval -> Server -> settled jsval * Server.
Variable post_validate_key : jsval -> Server -> settled jsval * Server.

(** The application around a page: the backend, the session store with
    what it keeps in the browser, the calls made so far, and where the
    router was last sent ([None]: nowhere yet). *)
Record app : Type := {
  server : Server;
  session : AuthStore.state;
  browser : AuthStore.env;
  calls : list call;
  navigated : option jsval
}.

(** [handleSubmit] of the login page; [location_state] is
    [location.state] of the render. *)
Definition login_handleSubmit (location_state : jsval)
    (f : login_form) (a : app) : login_form * app :=
  let from :=
    js_or (get (get location_state "from") "pathname") (JStr "/dashboard") in
  let payload := JObj [("email", lf_email f); ("password", lf_password f)] in
  let (res, srv) := post_login payload (server a) in
  let failed (err : jsval) :=
    ({| lf_email := lf_email f; lf_password := lf_password f;
        lf_vehicleNumber := lf_vehicleNumber f;
        lf_error := Dashboard.error_message err "Login failed";
        lf_loading := false |},
     {| server := srv; session := session a; browser := browser a;
        calls := calls a ++ [api_login payload]; navigated := navigated a |}) in
  match res with
  | Rejected err => failed err
  | Fulfilled response =>
      match AuthStore.login (get response "data")
              {| AuthStore.opt_vehicleNumber :=
                   js_or (lf_vehicleNumber f) JUndefined |}
              (session a) with
      | None => failed type_error
      | Some s' =>
          ({| lf_email := lf_email f; lf_password := lf_password f;
              lf_vehicleNumber := lf_vehicleNumber f;
              lf_error := JStr EmptyString;
              lf_loading := false |},
           {| server := srv; session := s';
              browser := AuthStore.commit JSON_stringify s' (browser a);
              calls := calls a ++ [api_login payload];
              navigated := Some from |})
      end
  end.

(** [handleSubmit] of the registration page. *)
Definition register_handleSubmit (f : register_form) (a : app)
    : register_form * app :=
  let official := strict_eq_str (rf_roleUI f) "OFFICIAL" in
  let backendRole := if official then JStr "officer" else JStr "public" in
  let payload :=
    JObj [("name", rf_name f); ("email", rf_email f);
          ("password", rf_password f); ("role", backendRole);
          ("vehicle_number", rf_vehicleNumber f)] in
  let failed (err : jsval) (srv : Server) (made : list call) :=
    ({| rf_name := rf_name f; rf_email := rf_email f;
        rf_password := rf_password f; rf_vehicleNumber := rf_vehicleNumber f;
        rf_roleUI := rf_roleUI f; rf_officialKey := rf_officialKey f;
        rf_error := Dashboard.error_message err "Registration failed";
        rf_loading := false |},
     {| server := srv; session := session a; browser := browser a;
        calls := made; navigated := navigated a |}) in
  let register (srv0 : Server) (made : list call) :=
    let (res, srv) := post_register payload srv0 in
    match res with
    | Rejected err => failed err srv (made ++ [api_register payload])%list
    | Fulfilled response =>
        match AuthStore.login (get response "data")
                {| AuthStore.opt_vehicleNumber := rf_vehicleNumber f |}
                (session a) with
        | None => failed type_error srv (made ++ [api_register payload])%list
        | Some s' =>
            ({| rf_name := rf_name f; rf_email := rf_email f;
                rf_password := rf_password f;
                rf_vehicleNumber := rf_vehicleNumber f;
                rf_roleUI := rf_roleUI f; rf_officialKey := rf_officialKey f;
                rf_error := JStr EmptyString;
                rf_loading := false |},
             {| server := srv; session := s';
                browser := AuthStore.commit JSON_stringify s' (browser a);
                calls := (made ++ [api_register payload])%list;
                navigated := Some (JStr "/dashboard") |})
        end
    end in
  if official then
    let (checked, srv) := post_validate_key (rf_officialKey f) (server a) in
    match checked with
    | Rejected err =>
        failed err srv (calls a ++ [api_validateOfficialKey (rf_officialKey f)])%list
    | Fulfilled _ =>
        register srv (calls a ++ [api_validateOfficialKey (rf_officialKey f)])%list
    end
  else register (server a) (calls a).

(** The [Logout] button of the navigation bar. *)
Definition handleLogout (a : app) : app :=
  let s' := AuthStore.logout (session a) in
  {| server := server a; session := s';
     browser := AuthStore.commit JSON_stringify s' (browser a);
     calls := calls a; navigated := Some (JStr "/login") |}.

End WithBackend.
End Pages.

(** ** The registration page of the SPA ([pages/RegisterPage.jsx]) *)
Module SpaPages.

(** The UTF-16 code units a character of a UTF-8 text starts: one for a
    lead byte of up to three bytes, two for the lead byte of four, none for
    a continuation byte. *)
Definition utf16_units (c : ascii) : nat :=
  let n := nat_of_ascii c in
  if (n <? 128)%nat then 1%nat
  else if (n <? 192)%nat then 0%nat
  else if (n <? 240)%nat then 1%nat
  else 2%nat.

(** [s.length] *)
Fixpoint js_length (s : string) : nat :=
  match s with
  | EmptyString => 0%nat
  | String c rest => (utf16_units c + js_length rest)%nat
  end.

Record register_form : Type := {
  name : jsval;
  email : jsval;
  password : string;
  confirmPassword : string;
  role : jsval;
  error : jsval;
  loading : bool
}.

Section WithBackend.
Variable JSON_parse : string -> option jsval.
Variable JSON_stringify : jsval -> string.
Variable Server : Type.
Variable post_register : jsval -> Server -> settled jsval * Server.

Record app : Type := {
  server : Server;
  session : SpaAuth.state * SpaAuth.env;
  calls : list jsval;
  navigated : option string
}.

Definition with_error (msg : jsval) (f : register_form) : register_form :=
  {| name := name f; email := email f; password := password f;
     confirmPassword := confirmPassword f; role := role f;
     error := msg; loading := loading f |}.

Definition with_loading (b : bool) (f : register_form) : register_form :=
  {| name := name f; email := email f; password := password f;
     confirmPassword := confirmPassword f; role := role f;
     error := error f; loading := b |}.

(** [handleSubmit]: it has no [catch], so what [register] or the reading
    of the stored user throws rejects the handler where it stands. *)
Definition handleSubmit (f : register_form) (a : app)
    : settled unit * (register_form * app) :=
  let f0 := with_error (JStr EmptyString) f in
  if negb (String.eqb (password f) (confirmPassword f)) then
    (Fulfilled tt, (with_error (JStr "Passwords do not match") f0, a))
  else if (js_length (password f) <? 6)%nat then
    (Fulfilled tt,
     (with_error (JStr "Password must be at least 6 characters") f0, a))
  else
    let f1 := with_loading true f0 in
    let payload :=
      JObj [("name", name f); ("email", email f);
            ("password", JStr (password f)); ("role", role f)] in
    let (response, srv) := post_register payload (server a) in
    let (result, p) := SpaAuth.register JSON_stringify response (session a) in
    let a1 (nav : option string) :=
      {| server := srv; session := p; calls := calls a ++ [payload];
         navigated := nav |} in
    match result with
    | Rejected err => (Rejected err, (f1, a1 (navigated a)))
    | Fulfilled r =>
        if SpaAuth.success r then
          match JSON_parse
                  (toString (SpaAuth.getItem "user" (SpaAuth.localStorage (snd p)))) with
          | None => (Rejected (JStr "SyntaxError"), (f1, a1 (navigated a)))
          | Some user =>
              match member user "role" with
              | None => (Rejected (JStr "TypeError"), (f1, a1 (navigated a)))
              | Some r' =>
                  (Fulfilled tt,
                   (with_loading false f1,
                    a1 (Some (if strict_eq_str r' "officer"
                              then "/officer/dashboard"
                              else "/user/dashboard"))))
              end
          end
        else
          (Fulfilled tt,
           (with_loading false (with_error (SpaAuth.error r) f1),
            a1 (navigated a)))
    end.

End WithBackend.
End SpaPages.

(** ** Loading the violations of the dashboard ([loadViolations] in
    [UserDashboard.jsx]) *)
Module DashboardLoad.
Import Dashboard.

Section WithBackend.
Variable Server : Type.
Variable get_violations :
  jsval -> Server -> settled (option (list violation)) * Server.

(** The dashboard with its violations cell and the vehicle numbers it
    asked the violations of. *)
Record page : Type := {
  world_of : world Server;
  violations_cell : list violation;
  violation_queries : list jsval
}.

Definition loadViolations (vehicleNumber : jsval) (p : page)
    : settled unit * page :=
  if negb (truthy vehicleNumber) then
    (Fulfilled tt,
     {| world_of := world_of p; violations_cell := [];
        violation_queries := violation_queries p |})
  else
    let (res, srv) := get_violations vehicleNumber (server Server (world_of p)) in
    let w := with_server Server srv (world_of p) in
    let asked := (violation_queries p ++ [vehicleNumber])%list in
    match res with
    | Fulfilled r =>
        (Fulfilled tt,
         {| world_of := w;
            violations_cell := match r with Some l => l | None => [] end;
            violation_queries := asked |})
    | Rejected _ =>
        (Fulfilled tt,
         {| world_of := w; violations_cell := violations_cell p;
            violation_queries := asked |})
    end.

(** The effect on [vehicleNumber], as far as it runs before it returns:
    the indicator goes on, the two loads are started and the flag of the
    pass is cleared.  A load that is started has made its request and
    waits for the answer, which comes when the effects of this commit have
    run: the request for the challans is on the trace, not settled, and
    the one for the violations is among the queries.  Without a vehicle
    number [loadViolations] empties the list at once and asks nothing. *)
Definition vehicle_effect (vehicleNumber : jsval) (p : page) : page :=
  let w := world_of p in
  {| world_of :=
       {| server := server Server w;
          hasSyncedRef := false;
          challans_cell := challans_cell Server w;
          loading_cell := true;
          error_cell := error_cell Server w;
          actionError_cell := actionError_cell Server w;
          trace := (trace Server w ++ [Sent listChallans])%list |};
     violations_cell :=
       if truthy vehicleNumber then violations_cell p else [];
     violation_queries :=
       if truthy vehicleNumber
       then (violation_queries p ++ [vehicleNumber])%list
       else violation_queries p |}.

(** The page around a world of the dashboard. *)
Definition with_world (w : world Server) (p : page) : page :=
  {| world_of := w; violations_cell := violations_cell p;
     violation_queries := violation_queries p |}.

End WithBackend.
End DashboardLoad.

(** ** The vehicle owner's dashboard of the SPA ([pages/UserDashboard.jsx]) *)
Module SpaDashboard.
Import Dashboard.

(** What an observer of the page sees, in order. *)
Inductive spa_event : Type :=
| Confirm (question : string) (answer : bool)
| Alert (message : string)
| Post (url : string)
| Get (url : string)
| ConsoleErr (err : jsval).

Section WithBackend.
Variable Server : Type.
Variable post_pay : jsval -> Server -> settled jsval * Server.
Variable get_challans : Server -> settled (option (list challan)) * Server.

Record page : Type := {
  server : Server;
  challans_cell : list challan;
  loading_cell : bool;
  error_cell : jsval;
  seen : list spa_event
}.

Definition note (ev : spa_event) (p : page) : page :=
  {| server := server p; challans_cell := challans_cell p;
     loading_cell := loading_cell p; error_cell := error_cell p;
     seen := (seen p ++ [ev])%list |}.

Definition fetchChallans (p : page) : page :=
  let p1 := note (Get "/challans") p in
  let (res, srv) := get_challans (server p1) in
  match res with
  | Fulfilled r =>
      {| server := srv;
         challans_cell := match r with Some l => l | None => [] end;
         loading_cell := false; error_cell := error_cell p1; seen := seen p1 |}
  | Rejected err =>
      {| server := srv; challans_cell := challans_cell p1;
         loading_cell := false; error_cell := JStr "Failed to load challans";
         seen := (seen p1 ++ [ConsoleErr err])%list |}
  end.

(** [handlePayChallan]; [confirmed] is what the visitor answers to
    [window.confirm].  Reading [err.response] throws when something that is
    no object was thrown, and the handler then rejects. *)
Definition handlePayChallan (confirmed : bool) (challanId : jsval) (p : page)
    : settled unit * page :=
  let p0 := note (Confirm "Proceed with payment?" confirmed) p in
  if negb confirmed then (Fulfilled tt, p0)
  else
    let url := ("/challans/" ++ toString challanId ++ "/pay")%string in
    let p1 := note (Post url) p0 in
    let (res, srv) := post_pay challanId (server p1) in
    let p2 :=
      {| server := srv; challans_cell := challans_cell p1;
         loading_cell := loading_cell p1; error_cell := error_cell p1;
         seen := seen p1 |} in
    match res with
    | Fulfilled _ =>
        (Fulfilled tt,
         fetchChallans (note (Alert "Payment successful! Receipt generated.") p2))
    | Rejected err =>
        match member err "response" with
        | None => (Rejected (JStr "TypeError"), p2)
        | Some r =>
            (Fulfilled tt,
             note (Alert ("Payment failed: "
                          ++ toString (js_or (get (get r "data") "message")
                                             (JStr "Unknown error")))%string)
                  p2)
        end
    end.

(** The control of a challan row: a button only when the status is
    ['unpaid'], a label otherwise. *)
Definition pay_control (c : challan) : option (bool -> page -> settled unit * page) :=
  if strict_eq_str (c_status c) "unpaid"
  then Some (fun confirmed => handlePayChallan confirmed (c_id c))
  else None.

(** The visitor clicks in the [i]-th row where the button would be and
    answers the question, if one is asked. *)
Definition click_row (challans : list challan) (i : nat) (confirmed : bool)
    (p : page) : settled unit * page :=
  match map pay_control challans !! i with
  | Some (Some onClick) => onClick confirmed p
  | _ => (Fulfilled tt, p)
  end.

(** The urls of the requests of a log that change something, in order. *)
Fixpoint posts (l : list spa_event) : list string :=
  match l with
  | [] => []
  | Post url :: rest => url :: posts rest
  | _ :: rest => posts rest
  end.

End WithBackend.
End SpaDashboard.

(** ** A backend for the login and registration pages

    It counts the accounts it made, knows one password and one official
    key, and answers a registration with an identity of the role asked. *)
Module DemoAuth.

Definition refusal (status : Z) (message : string) : jsval :=
  JObj [("response",
         JObj [("status", JNum status);
               ("data", JObj [("message", JStr message)])])].

Definition answer (payload : jsval) (n : nat) : jsval :=
  JObj [("status", JNum 200);
        ("data",
         JObj [("user",
                JObj [("id", JNum (Z.of_nat (S n)));
                      ("name", get payload "name");
                      ("email", get payload "email");
                      ("role", js_or (get payload "role") (JStr "public"))]);
               ("access_token", JStr "jwt-3");
               ("refresh_token", JStr "refresh-3")])].

Definition post_register (payload : jsval) (n : nat) : settled jsval * nat :=
  (Fulfilled (answer payload n), S n).

Definition post_login (payload : jsval) (n : nat) : settled jsval * nat :=
  if same_value_zero (get payload "password") (JStr "correct horse")
  then (Fulfilled (answer payload n), n)
  else (Rejected (refusal 401 "Invalid credentials"), n).

Definition post_validate_key (key : jsval) (n : nat) : settled jsval * nat :=
  if same_value_zero key (JStr "official-key")
  then (Fulfilled (JObj [("status", JNum 200)]), n)
  else (Rejected (refusal 403 "Invalid official key"), n).

Definition user_form : Pages.register_form :=
  {| Pages.rf_name := JStr "Ravi"; Pages.rf_email := JStr "ravi@example.org";
     Pages.rf_password := JStr "correct horse";
     Pages.rf_vehicleNumber := JStr "KA01AB1234";
     Pages.rf_roleUI := JStr "USER"; Pages.rf_officialKey := JStr EmptyString;
     Pages.rf_error := JStr EmptyString; Pages.rf_loading := false |}.

(** The application just opened by a visitor on an empty storage. *)
Definition opened : Pages.app nat :=
  {| Pages.server := 0%nat; Pages.session := AuthStore.initial;
     Pages.browser := {| AuthStore.localStorage := ∅;
                         AuthStore.api_accessToken := JNull |};
     Pages.calls := []; Pages.navigated := None |}.

Definition spa_form : SpaPages.register_form :=
  {| SpaPages.name := JStr "Asha"; SpaPages.email := JStr "asha@example.org";
     SpaPages.password := "correct horse";
     SpaPages.confirmPassword := "correct horse";
     SpaPages.role := JStr "officer";
     SpaPages.error := JStr EmptyString; SpaPages.loading := false |}.

Definition spa_opened : SpaPages.app nat :=
  {| SpaPages.server := 0%nat;
     SpaPages.session :=
       ({| SpaAuth.user := JNull; SpaAuth.loading := false |},
        {| SpaAuth.localStorage := ∅; SpaAuth.authorization := None |});
     SpaPages.calls := []; SpaPages.navigated := None |}.

End DemoAuth.

(** ** The dashboard of the Material UI client, just opened on the
    accepting backend *)
Module DemoPage.

Definition opened : DashboardLoad.page DemoBackend.server :=
  {| DashboardLoad.world_of := DemoBackend.fresh DemoBackend.accepting;
     DashboardLoad.violations_cell := [];
     DashboardLoad.violation_queries := [] |}.

Definition other_vehicle : jsval := JStr "KA05XY9876".

End DemoPage.

(** ** A backend for the dashboard of the SPA: it accepts every payment
    and lists what it holds. *)
Module DemoSpa.
Import Dashboard.

Definition post_pay (challanId : jsval) (held : list challan)
    : settled jsval * list challan :=
  (Fulfilled (JObj [("status", JNum 200)]),
   map (DemoBackend.mark_paid challanId) held).

Definition get_challans (held : list challan)
    : settled (option (list challan)) * list challan :=
  (Fulfilled (Some held), held).

Definition rows : list challan := [Samples.paid_challan; Samples.unpaid_challan].

Definition opened : SpaDashboard.page (list challan) :=
  {| SpaDashboard.server := rows; SpaDashboard.challans_cell := rows;
     SpaDashboard.loading_cell := false;
     SpaDashboard.error_cell := JStr EmptyString; SpaDashboard.seen := [] |}.

End DemoSpa.

(** * Properties *)

(** ** The guards *)
Module GuardSpec.
Import Guard.

(** Without a user the Material UI store never reports an authenticated
    session. *)
Lemma no_user_not_authenticated (s : AuthStore.state) :
  truthy (AuthStore.user s) = false ->
  AuthStore.isAuthenticated (AuthStore.value s) = false.
Proof.
  intros Hu. unfold AuthStore.value, js_and. simpl.
  destruct (truthy (AuthStore.accessToken s)) eqn:Ht; [exact Hu | exact Ht].
Qed.

(** C3, as the claim states it, fails on the Material UI guard: a signed-in
    officer facing the empty role list is sent to the dashboard, not let
    through. *)
Lemma empty_roles_redirect_home :
  truthy (AuthStore.user Samples.signed_in_officer) = true
  /\ AuthStore.isAuthenticated (AuthStore.value Samples.signed_in_officer) = true
  /\ ProtectedRoute (AuthStore.value Samples.signed_in_officer) (Some [])
       = RedirectHome
  /\ ProtectedRoute (AuthStore.value Samples.signed_in_officer) (Some [])
       <> Allow.
Proof. repeat split. discriminate. Qed.

(** C3 (amended): with a signed-in session, the Material UI guard allows
    when no role list is passed or the role is in the list, and redirects
    to the dashboard when a list is passed that lacks the role, the empty
    list included; the SPA guard, once restoring is over, allows for no
    list, the empty list and a list holding the role, and redirects home
    for a non-empty list that lacks it. *)
Theorem guard_with_identity
    (s : AuthStore.state) (t : SpaAuth.state) (roles : list jsval) :
  AuthStore.isAuthenticated (AuthStore.value s) = true ->
  truthy (SpaAuth.user t) = true ->
  SpaAuth.loading t = false ->
  (ProtectedRoute (AuthStore.value s) None = Allow
   /\ (includes roles (AuthStore.role (AuthStore.value s)) = true ->
       ProtectedRoute (AuthStore.value s) (Some roles) = Allow)
   /\ (includes roles (AuthStore.role (AuthStore.value s)) = false ->
       ProtectedRoute (AuthStore.value s) (Some roles) = RedirectHome))
  /\ (SpaProtectedRoute t None = Allow
      /\ SpaProtectedRoute t (Some []) = Allow
      /\ (includes roles (get (SpaAuth.user t) "role") = true ->
          SpaProtectedRoute t (Some roles) = Allow)
      /\ (roles <> [] ->
          includes roles (get (SpaAuth.user t) "role") = false ->
          SpaProtectedRoute t (Some roles) = SpaRedirectHome)).
Proof.
  intros Hauth Huser Hload. split.
  - unfold ProtectedRoute. rewrite Hauth. simpl.
    repeat split; intros ->; reflexivity.
  - unfold SpaProtectedRoute. rewrite Hload, Huser. simpl.
    repeat split.
    + intros ->. rewrite andb_false_r. reflexivity.
    + intros Hne ->. destruct roles as [|r roles]; [congruence | reflexivity].
Qed.

(** The officer passes the officer-only route of the Material UI client;
    the vehicle owner is sent home from the SPA's. *)
Lemma guard_with_identity_witness :
  ProtectedRoute (AuthStore.value Samples.signed_in_officer) (Some [JStr "officer"])
    = Allow
  /\ SpaProtectedRoute Samples.spa_signed_in_owner (Some [JStr "officer"])
    = SpaRedirectHome.
Proof.
  pose proof (guard_with_identity Samples.signed_in_officer
                Samples.spa_signed_in_owner [JStr "officer"]
                eq_refl eq_refl eq_refl) as [[_ [Hin _]] [_ [_ [_ Hout]]]].
  split.
  - apply Hin. reflexivity.
  - apply Hout; [discriminate | reflexivity].
Defined.

(** C7, as the claim states it, fails on the SPA guard: on the first render
    nobody is signed in yet and the guard shows the loading screen. *)
Lemma loading_is_not_redirect_login :
  truthy (SpaAuth.user SpaAuth.initial) = false
  /\ SpaProtectedRoute SpaAuth.initial (Some [JStr "public"]) = LoadingScreen
  /\ SpaProtectedRoute SpaAuth.initial (Some [JStr "public"]) <> RedirectLogin.
Proof. simpl. repeat split. discriminate. Qed.

(** C7 (amended): without an identity the Material UI guard redirects to
    the login page whatever the role list; so does the SPA guard once
    restoring is over, and until then it shows the loading screen. *)
Theorem guard_without_identity
    (s : AuthStore.state) (t : SpaAuth.state) (allowedRoles : option (list jsval)) :
  truthy (AuthStore.user s) = false ->
  truthy (SpaAuth.user t) = false ->
  ProtectedRoute (AuthStore.value s) allowedRoles = RedirectLogin
  /\ SpaProtectedRoute t allowedRoles =
       if SpaAuth.loading t then LoadingScreen else RedirectLogin.
Proof.
  intros Hs Ht. split.
  - unfold ProtectedRoute. rewrite (no_user_not_authenticated s Hs). reflexivity.
  - unfold SpaProtectedRoute. rewrite Ht. destruct (SpaAuth.loading t); reflexivity.
Qed.

(** Nobody is signed in: both guards send to the login page. *)
Lemma guard_without_identity_witness :
  ProtectedRoute (AuthStore.value AuthStore.initial) (Some [JStr "officer"])
    = RedirectLogin
  /\ SpaProtectedRoute Samples.spa_signed_out (Some [JStr "officer"])
    = RedirectLogin.
Proof.
  exact (guard_without_identity AuthStore.initial Samples.spa_signed_out
           (Some [JStr "officer"]) eq_refl eq_refl).
Defined.

End GuardSpec.

(** ** The reconciliation pass and the pay control *)
Module ReconcileSpec.
Import Dashboard.
Local Open Scope list_scope.

Section WithBackend.
Variable Server : Type.
Variable post_from_violation : jsval -> Server -> settled unit * Server.
Variable get_challans : Server -> settled (option (list challan)) * Server.
Variable post_pay : jsval -> Server -> settled unit * Server.

Local Abbreviation world := (world Server).
Local Abbreviation sync :=
  (syncChallansFromViolations Server post_from_violation get_challans).
Local Abbreviation load := (loadChallans Server get_challans).
Local Abbreviation create_each := (create_each Server post_from_violation).
Local Abbreviation issued := (issued Server post_from_violation).
Local Abbreviation creation_events := (creation_events Server post_from_violation).
Local Abbreviation create_all l :=
  (for_of Server l
     (fun v => await Server (createChallanFromViolation (v_id v))
                 (post_from_violation (v_id v)))).

(** *** Traces *)

Lemma creations_app (t u : list event) :
  creations (t ++ u) = creations t ++ creations u.
Proof.
  induction t as [|[[i| |i]|r ok|m e] t IH]; simpl;
    [reflexivity | now rewrite IH | assumption ..].
Qed.

Lemma refreshes_app (t u : list event) :
  refreshes (t ++ u) = refreshes t + refreshes u.
Proof.
  induction t as [|[[i| |i]|r ok|m e] t IH]; simpl;
    [reflexivity | assumption | now rewrite IH | assumption ..].
Qed.

Lemma creations_creation_events (ids : list jsval) (srv : Server) :
  creations (creation_events ids srv) = issued ids srv.
Proof.
  revert srv. induction ids as [|i ids IH]; intros srv; simpl; [reflexivity|].
  destruct (post_from_violation i srv) as [[[]|err] srv']; simpl;
    [now rewrite IH | reflexivity].
Qed.

Lemma refreshes_creation_events (ids : list jsval) (srv : Server) :
  refreshes (creation_events ids srv) = 0.
Proof.
  revert srv. induction ids as [|i ids IH]; intros srv; simpl; [reflexivity|].
  destruct (post_from_violation i srv) as [[[]|err] srv']; simpl;
    [apply IH | reflexivity].
Qed.

Lemma pays_creation_events (ids : list jsval) (srv : Server) :
  pays (creation_events ids srv) = [].
Proof.
  revert srv. induction ids as [|i ids IH]; intros srv; simpl; [reflexivity|].
  destruct (post_from_violation i srv) as [[[]|err] srv']; simpl;
    [apply IH | reflexivity].
Qed.

Lemma sequential_creation_events (ids : list jsval) (srv : Server) :
  sequential (creation_events ids srv).
Proof.
  revert srv. induction ids as [|i ids IH]; intros srv; simpl; [exact I|].
  destruct (post_from_violation i srv) as [[[]|err] srv']; simpl; auto.
Qed.

Lemma sequential_app_aux (u : list event) (Hu : sequential u) (t : list event) :
  (sequential t -> sequential (t ++ u))
  /\ (forall e, sequential (e :: t) -> sequential ((e :: t) ++ u)).
Proof.
  induction t as [|a t [IH1 IH2]].
  - split; [intros _; exact Hu|].
    intros [r|r ok|m e]; simpl; intros H; [contradiction | contradiction | exact Hu].
  - split; [apply IH2|].
    intros [r|r ok|m e]; simpl.
    + destruct a as [r'|r' ok|m e]; try contradiction.
      intros [-> H]. split; [reflexivity | apply IH1, H].
    + contradiction.
    + apply IH2.
Qed.

Lemma sequential_app (t u : list event) :
  sequential t -> sequential u -> sequential (t ++ u).
Proof. intros Ht Hu. now apply (sequential_app_aux u Hu t). Qed.

(** When every request of the list is accepted, all of them leave. *)
Lemma issued_all (ids : list jsval) (srv : Server) :
  is_fulfilled (fst (create_each ids srv)) = true -> issued ids srv = ids.
Proof.
  revert srv. induction ids as [|i ids IH]; intros srv; simpl; [reflexivity|].
  destruct (post_from_violation i srv) as [[[]|err] srv']; simpl;
    [intros H; now rewrite IH | discriminate].
Qed.

(** A loop abandoned at [i] issued the requests up to [i]. *)
Lemma issued_until_rejected (before after : list jsval) (i : jsval)
    (srv srv1 srv2 : Server) (err : jsval) :
  create_each before srv = (Fulfilled tt, srv1) ->
  post_from_violation i srv1 = (Rejected err, srv2) ->
  issued (before ++ i :: after) srv = before ++ [i]
  /\ create_each (before ++ i :: after) srv = (Rejected err, srv2).
Proof.
  revert srv. induction before as [|b before IH]; intros srv; simpl.
  - intros [= ->] ->. split; reflexivity.
  - destruct (post_from_violation b srv) as [[[]|e] srv']; [|discriminate].
    intros Hb Hi. destruct (IH srv' Hb Hi) as [-> ->]. split; reflexivity.
Qed.

(** *** The loop *)

(** The sequential loop over the violations to create: its outcome, the
    backend it leaves, what it logged, and the flag it does not touch. *)
Lemma create_all_run (l : list violation) (w : world) :
  exists w',
    create_all l w = (fst (create_each (map v_id l) (server Server w)), w')
    /\ server Server w' = snd (create_each (map v_id l) (server Server w))
    /\ trace Server w' = trace Server w ++ creation_events (map v_id l) (server Server w)
    /\ hasSyncedRef Server w' = hasSyncedRef Server w.
Proof.
  revert w. induction l as [|v l IH]; intros w; simpl.
  - exists w. unfold ret. rewrite app_nil_r. repeat split.
  - unfold bind, await at 1. simpl.
    destruct (post_from_violation (v_id v) (server Server w)) as [[[]|err] srv'] eqn:Hp; simpl.
    + match goal with |- context [create_all l ?w1] => destruct (IH w1) as (w' & Hrun & Hsrv & Htr & Hfl) end.
      exists w'. rewrite Hrun. simpl in *. repeat split; try assumption.
      rewrite Htr. rewrite <- !app_assoc. reflexivity.
    + eexists. repeat split; simpl. rewrite <- !app_assoc. reflexivity.
Qed.

Lemma load_run (w : world) :
  exists ok w',
    load w = (Fulfilled tt, w')
    /\ trace Server w' = trace Server w ++ [Sent listChallans; Settled listChallans ok]
    /\ hasSyncedRef Server w' = hasSyncedRef Server w.
Proof.
  unfold loadChallans, try_catch, bind, await. simpl.
  destruct (get_challans (server Server w)) as [[res|err] srv]; simpl;
    eexists; eexists; repeat split; simpl; rewrite <- !app_assoc; reflexivity.
Qed.

(** *** The pass *)

(** Membership in the set of printed [violation_id]s is [covered]. *)
Lemma has_covered (challans : list challan) (v : violation) :
  bool_decide (toString (v_id v) ∈
     (list_to_set (map (fun c => toString (c_violation_id c)) challans) : gset string))
  = covered challans v.
Proof.
  destruct (covered challans v) eqn:Hc.
  - apply bool_decide_eq_true, elem_of_list_to_set, list_elem_of_In, in_map_iff.
    apply existsb_exists in Hc as (c & Hin & Heq).
    apply String.eqb_eq in Heq. now exists c.
  - apply bool_decide_eq_false. intros Hin.
    apply elem_of_list_to_set, list_elem_of_In, in_map_iff in Hin as (c & Heq & Hin).
    assert (covered challans v = true) as Hc'; [|congruence].
    apply existsb_exists. exists c. split; [assumption | now apply String.eqb_eq].
Qed.

(** The list the pass computes is the list of missing violations. *)
Lemma toCreate_missing (challans : list challan) (violations : list violation) :
  List.filter
    (fun v => negb (bool_decide (toString (v_id v) ∈
       (list_to_set (map (fun c => toString (c_violation_id c)) challans) : gset string))))
    violations
  = missing challans violations.
Proof.
  unfold missing. apply filter_ext. intros v. now rewrite has_covered.
Qed.

(** A pass that has nothing to do changes nothing. *)
Lemma sync_idle (vn : jsval) (challans : list challan) (violations : list violation)
    (w : world) :
  truthy vn = false \/ hasSyncedRef Server w = true
    \/ missing challans violations = [] ->
  sync vn challans violations w = (Fulfilled tt, w).
Proof.
  intros H. unfold syncChallansFromViolations.
  destruct (negb (truthy vn) || hasSyncedRef Server w) eqn:Hg; [reflexivity|].
  apply orb_false_elim in Hg as [Hvn Hfl]. apply negb_false_iff in Hvn.
  destruct H as [H|[H|H]]; [congruence | congruence |].
  rewrite toCreate_missing, H. reflexivity.
Qed.

(** A pass that has something to do: it always completes, and what it
    leaves behind depends on whether the backend accepted every creation. *)
Lemma sync_run (vn : jsval) (challans : list challan) (violations : list violation)
    (w : world) :
  truthy vn = true ->
  hasSyncedRef Server w = false ->
  missing challans violations <> [] ->
  let ids := map v_id (missing challans violations) in
  exists w',
    sync vn challans violations w = (Fulfilled tt, w')
    /\ match fst (create_each ids (server Server w)) with
       | Fulfilled _ =>
           hasSyncedRef Server w' = true
           /\ exists ok,
               trace Server w' =
                 trace Server w ++ creation_events ids (server Server w)
                   ++ [Sent listChallans; Settled listChallans ok]
       | Rejected err =>
           hasSyncedRef Server w' = false
           /\ trace Server w' =
                trace Server w ++ creation_events ids (server Server w)
                  ++ [ConsoleError sync_message err]
       end.
Proof.
  intros Hvn Hfl Hne ids. unfold syncChallansFromViolations.
  rewrite Hvn, Hfl, toCreate_missing. simpl.
  destruct (missing challans violations) as [|v0 todo] eqn:Hm; [congruence|].
  change (length (v0 :: todo) =? 0)%nat with false. cbv iota.
  unfold try_catch, bind.
  destruct (create_all_run (v0 :: todo) w) as (w1 & Hrun & _ & Htr & Hfl1).
  rewrite Hrun. fold ids in Hrun, Htr |- *.
  destruct (fst (create_each ids (server Server w))) as [[]|err].
  - unfold set_hasSynced.
    match goal with |- context [load ?w2] =>
      destruct (load_run w2) as (ok & w' & Hload & Htr' & Hfl') end.
    exists w'. rewrite Hload. split; [reflexivity|]. simpl in *.
    split; [assumption|]. exists ok. rewrite Htr', Htr. now rewrite <- app_assoc.
  - eexists. split; [reflexivity|]. simpl. split; [congruence|].
    rewrite Htr. now rewrite <- app_assoc.
Qed.

Lemma issued_subset (ids : list jsval) (srv : Server) (i : jsval) :
  In i (issued ids srv) -> In i ids.
Proof.
  revert srv. induction ids as [|j ids IH]; intros srv; simpl; [intros []|].
  destruct (post_from_violation j srv) as [[[]|err] srv']; simpl.
  - intros [->|H]; [now left | right; eauto].
  - intros [->|[]]. now left.
Qed.

Local Ltac idle_case :=
  simpl; split; [reflexivity|]; split; [reflexivity|]; split; [exact I|];
  split; [reflexivity|]; intros _; split; reflexivity.

(** Every pass completes; its requests are sequential and the creations
    are those the backend let the loop reach. *)
Lemma sync_trace (vn : jsval) (challans : list challan) (violations : list violation)
    (w : world) :
  let todo := map v_id (missing challans violations) in
  exists evs w',
    sync vn challans violations w = (Fulfilled tt, w')
    /\ trace Server w' = trace Server w ++ evs
    /\ sequential evs
    /\ creations evs =
         (if truthy vn && negb (hasSyncedRef Server w)
          then issued todo (server Server w) else [])
    /\ (todo = [] -> evs = [] /\ w' = w).
Proof.
  cbv zeta.
  destruct (truthy vn) eqn:Hvn;
    [destruct (hasSyncedRef Server w) eqn:Hfl;
       [|destruct (missing challans violations) as [|v0 rest] eqn:Hm] |].
  - exists [], w. rewrite sync_idle, app_nil_r by (right; left; exact Hfl).
    idle_case.
  - exists [], w. rewrite sync_idle, app_nil_r by (right; right; exact Hm).
    idle_case.
  - destruct (sync_run vn challans violations w Hvn Hfl) as (w' & Hrun & Hout);
      [congruence|].
    rewrite Hm in Hout.
    set (todo := map v_id (v0 :: rest)) in *.
    destruct (fst (create_each todo (server Server w))) as [[]|err].
    + destruct Hout as (_ & ok & Htr).
      eexists; exists w'. split; [exact Hrun|]. split; [exact Htr|].
      split; [|split].
      * apply sequential_app; [apply sequential_creation_events | simpl; auto].
      * rewrite creations_app, creations_creation_events. simpl. apply app_nil_r.
      * discriminate.
    + destruct Hout as (_ & Htr).
      eexists; exists w'. split; [exact Hrun|]. split; [exact Htr|].
      split; [|split].
      * apply sequential_app; [apply sequential_creation_events | simpl; auto].
      * rewrite creations_app, creations_creation_events. simpl. apply app_nil_r.
      * discriminate.
  - exists [], w. rewrite sync_idle, app_nil_r by (left; exact Hvn).
    idle_case.
Qed.

(** C2 (amended): with a vehicle number and the flag not yet set, a pass
    sends creation requests for the violations whose printed id no challan
    carries, in arrival order and one at a time, as far as the first request
    the backend rejects; when none is rejected that is exactly one request
    per such violation; when there is no such violation nothing is sent and
    nothing changes, the flag included. *)
Theorem pass_issues_missing_in_order
    (vn : jsval) (challans : list challan) (violations : list violation) (w : world) :
  truthy vn = true ->
  hasSyncedRef Server w = false ->
  let todo := map v_id (missing challans violations) in
  exists evs w',
    sync vn challans violations w = (Fulfilled tt, w')
    /\ trace Server w' = trace Server w ++ evs
    /\ sequential evs
    /\ creations evs = issued todo (server Server w)
    /\ (is_fulfilled (fst (create_each todo (server Server w))) = true ->
        creations evs = todo)
    /\ (todo = [] -> evs = [] /\ w' = w).
Proof.
  intros Hvn Hfl todo.
  destruct (sync_trace vn challans violations w) as (evs & w' & Hrun & Htr & Hseq & Hcr & Hnil).
  rewrite Hvn, Hfl in Hcr. simpl in Hcr. fold todo in Hcr, Hnil.
  exists evs, w'.
  split; [exact Hrun|]. split; [exact Htr|]. split; [exact Hseq|].
  split; [exact Hcr|]. split; [|exact Hnil].
  intros Hok. rewrite Hcr. now apply issued_all.
Qed.

(** C1 (amended): when the creation request for one missing violation is
    rejected, the pass still completes without throwing and the rejection
    is logged on the console; the requests for the violations after it are
    not sent, the list is not fetched again and the flag stays unset. *)
Theorem rejected_creation_abandons_pass
    (vn : jsval) (challans : list challan) (violations : list violation) (w : world)
    (before after : list violation) (v : violation)
    (srv1 srv2 : Server) (err : jsval) :
  truthy vn = true ->
  hasSyncedRef Server w = false ->
  missing challans violations = before ++ v :: after ->
  create_each (map v_id before) (server Server w) = (Fulfilled tt, srv1) ->
  post_from_violation (v_id v) srv1 = (Rejected err, srv2) ->
  exists evs w',
    sync vn challans violations w = (Fulfilled tt, w')
    /\ trace Server w' = trace Server w ++ evs ++ [ConsoleError sync_message err]
    /\ creations evs = map v_id before ++ [v_id v]
    /\ refreshes evs = 0
    /\ hasSyncedRef Server w' = false.
Proof.
  intros Hvn Hfl Hm Hbefore Hv.
  destruct (sync_run vn challans violations w Hvn Hfl) as (w' & Hrun & Hout).
  { rewrite Hm. now destruct before. }
  rewrite Hm, map_app in Hout. simpl in Hout.
  destruct (issued_until_rejected (map v_id before) (map v_id after) (v_id v)
              (server Server w) srv1 srv2 err Hbefore Hv) as [Hiss Hall].
  rewrite Hall in Hout. simpl in Hout. destruct Hout as [Hfl' Htr].
  eexists; exists w'. split; [exact Hrun|]. split; [exact Htr|].
  rewrite creations_creation_events, refreshes_creation_events. auto.
Qed.

(** C4: with a vehicle number, a fresh flag and a backend that accepts both
    creations, a pass over violations [v1, v2] and no challans sends exactly
    the two creation requests, [v1] first; a pass over the same violations
    and their two challans changes nothing and sends nothing. *)
Theorem reconciliation_idempotent
    (vn : jsval) (v1 v2 : violation) (w : world) :
  truthy vn = true ->
  hasSyncedRef Server w = false ->
  is_fulfilled (fst (create_each [v_id v1; v_id v2] (server Server w))) = true ->
  (exists evs w',
     sync vn [] [v1; v2] w = (Fulfilled tt, w')
     /\ trace Server w' = trace Server w ++ evs
     /\ creations evs = [v_id v1; v_id v2]
     /\ hasSyncedRef Server w' = true)
  /\ (forall (c1 c2 : challan) (w2 : world),
        c_violation_id c1 = v_id v1 ->
        c_violation_id c2 = v_id v2 ->
        sync vn [c1; c2] [v1; v2] w2 = (Fulfilled tt, w2)).
Proof.
  intros Hvn Hfl Hok. split.
  - destruct (sync_run vn [] [v1; v2] w Hvn Hfl) as (w' & Hrun & Hout);
      [discriminate|].
    change (map v_id (missing [] [v1; v2])) with [v_id v1; v_id v2] in Hout.
    destruct (fst (create_each [v_id v1; v_id v2] (server Server w))) as [[]|err] eqn:Hc;
      [|discriminate].
    destruct Hout as (Hfl' & ok & Htr).
    eexists; exists w'. split; [exact Hrun|]. split; [exact Htr|].
    split; [|assumption].
    rewrite creations_app, creations_creation_events, issued_all by now rewrite Hc.
    apply app_nil_r.
  - intros c1 c2 w2 H1 H2. apply sync_idle. right; right.
    unfold missing, covered. simpl. rewrite H1, H2, !String.eqb_refl.
    now rewrite orb_true_r.
Qed.

(** C9: a violation whose numeric id prints like the string [violation_id]
    of a displayed challan counts as covered, and no pass sends a creation
    request for it.  The print is that of [String], at every size of the
    id: the digits below 2^53, the exponent form from 1e21 on. *)
Theorem printed_ids_cover
    (vn : jsval) (challans : list challan) (violations : list violation) (w : world)
    (v : violation) (c : challan) (z : Z) :
  In c challans ->
  v_id v = JNum z ->
  c_violation_id c = JStr (toString (JNum z)) ->
  covered challans v = true
  /\ exists evs w',
       sync vn challans violations w = (Fulfilled tt, w')
       /\ trace Server w' = trace Server w ++ evs
       /\ ~ In (v_id v) (creations evs).
Proof.
  intros Hin Hv Hc.
  assert (covered challans v = true) as Hcov.
  { apply existsb_exists. exists c. split; [assumption|].
    rewrite Hv, Hc. apply String.eqb_refl. }
  split; [assumption|].
  destruct (sync_trace vn challans violations w) as (evs & w' & Hrun & Htr & _ & Hcr & _).
  exists evs, w'. split; [assumption|]. split; [assumption|].
  rewrite Hcr. destruct (truthy vn && negb (hasSyncedRef Server w)); [|intros []].
  intros Hiss. apply issued_subset, in_map_iff in Hiss as (v' & Hid & Hmiss).
  apply filter_In in Hmiss as [_ Hnot].
  unfold covered in Hcov, Hnot. rewrite Hid in Hnot. rewrite Hcov in Hnot.
  discriminate.
Qed.

(** *** The pay control *)

Lemma lookup_map {A B : Type} (f : A -> B) (l : list A) (i : nat) (a : A) :
  l !! i = Some a -> map f l !! i = Some (f a).
Proof.
  revert i. induction l as [|x l IH]; intros [|i]; simpl; try discriminate.
  - now intros [= ->].
  - apply IH.
Qed.

Local Abbreviation pay := (handlePay Server get_challans post_pay).
Local Abbreviation legacy_pay := (legacy_handlePay Server get_challans post_pay).
Local Abbreviation card := (pay_button Server get_challans post_pay).
Local Abbreviation legacy_card := (legacy_pay_button Server get_challans post_pay).

Lemma status_is_paid (c : challan) :
  strict_eq_str (c_status c) "paid" = true <-> c_status c = JStr "paid".
Proof.
  unfold strict_eq_str. destruct (c_status c); try (split; discriminate).
  rewrite String.eqb_eq. split; congruence.
Qed.

Lemma legacy_load_run (w : world) :
  exists ok w',
    legacy_loadChallans Server get_challans w = (Fulfilled tt, w')
    /\ trace Server w' = trace Server w ++ [Sent listChallans; Settled listChallans ok].
Proof.
  unfold legacy_loadChallans, try_finally, try_catch, bind, await. simpl.
  destruct (get_challans (server Server w)) as [[res|err] srv]; simpl;
    eexists; eexists; repeat split; simpl; rewrite <- !app_assoc; reflexivity.
Qed.

(** A payment that was started sends one pay request, for the id it was
    given, and never throws. *)
Lemma handlePay_run (challanId : jsval) (w : world) :
  exists evs w',
    pay challanId w = (Fulfilled tt, w')
    /\ trace Server w' = trace Server w ++ evs
    /\ pays evs = [challanId].
Proof.
  unfold handlePay, try_catch, bind, await at 1. simpl.
  destruct (post_pay challanId (server Server w)) as [[[]|err] srv]; simpl.
  - match goal with |- context [load ?w1] =>
      destruct (load_run w1) as (ok & w' & Hload & Htr & _) end.
    rewrite Hload. eexists; exists w'. split; [reflexivity|]. simpl in Htr.
    split; [rewrite Htr, <- !app_assoc; reflexivity | reflexivity].
  - eexists; eexists. split; [reflexivity|]. simpl.
    split; [rewrite <- !app_assoc; reflexivity | reflexivity].
Qed.

Lemma legacy_handlePay_run (challanId : jsval) (w : world) :
  exists evs w',
    legacy_pay challanId w = (Fulfilled tt, w')
    /\ trace Server w' = trace Server w ++ evs
    /\ pays evs = [challanId].
Proof.
  unfold legacy_handlePay, try_catch, bind, await at 1. simpl.
  destruct (post_pay challanId (server Server w)) as [[[]|err] srv]; simpl.
  - match goal with |- context [legacy_loadChallans _ _ ?w1] =>
      destruct (legacy_load_run w1) as (ok & w' & Hload & Htr) end.
    rewrite Hload. eexists; exists w'. split; [reflexivity|]. simpl in Htr.
    split; [rewrite Htr, <- !app_assoc; reflexivity | reflexivity].
  - eexists; eexists. split; [reflexivity|]. simpl.
    split; [rewrite <- !app_assoc; reflexivity | reflexivity].
Qed.

(** C10: in both dashboards the pay control of a displayed challan is
    disabled exactly when its status is ['paid']; a click on the card of a
    paid challan sends nothing, and a click on any other card sends one pay
    request, for that card's challan. *)
Theorem pay_control_only_for_unpaid
    (challans : list challan) (i : nat) (c : challan) (w : world) :
  challans !! i = Some c ->
  (disabled Server (card c) = true <-> c_status c = JStr "paid")
  /\ (disabled Server (legacy_card c) = true <-> c_status c = JStr "paid")
  /\ (exists evs w',
        click_card Server get_challans post_pay challans i w = (Fulfilled tt, w')
        /\ trace Server w' = trace Server w ++ evs
        /\ pays evs = if strict_eq_str (c_status c) "paid" then [] else [c_id c])
  /\ (exists evs w',
        legacy_click_card Server get_challans post_pay challans i w = (Fulfilled tt, w')
        /\ trace Server w' = trace Server w ++ evs
        /\ pays evs = if strict_eq_str (c_status c) "paid" then [] else [c_id c]).
Proof.
  intros Hi.
  split; [apply status_is_paid|]. split; [apply status_is_paid|].
  unfold click_card, legacy_click_card, render_pay_controls.
  rewrite !(lookup_map _ challans i c Hi). unfold click. simpl.
  destruct (strict_eq_str (c_status c) "paid").
  - split; exists [], w; rewrite app_nil_r; repeat split.
  - split; [apply handlePay_run | apply legacy_handlePay_run].
Qed.

End WithBackend.

(** *** Runs against the demonstration backend *)
Import DemoBackend Samples.

(** C1, as the claim states it, fails: the backend rejects the creation for
    [v1]; the request for [v2] never leaves and the flag stays unset. *)
Lemma rejection_skips_the_rest :
  map v_id (missing [] [v1; v2]) = [JStr "v1"; JStr "v2"]
  /\ creations
       (trace server (snd (sync vehicle [] [v1; v2] (fresh (refusing [JStr "v1"])))))
     = [JStr "v1"]
  /\ ~ In (JStr "v2")
        (creations
           (trace server (snd (sync vehicle [] [v1; v2] (fresh (refusing [JStr "v1"]))))))
  /\ hasSyncedRef server
       (snd (sync vehicle [] [v1; v2] (fresh (refusing [JStr "v1"])))) = false.
Proof.
  vm_compute. repeat split. intros [H|[]]. discriminate H.
Qed.

(** The same run, read through the theorem: [v1] is the first missing
    violation and the backend rejects it. *)
Lemma rejected_creation_abandons_pass_witness :
  exists evs w',
    sync vehicle [] [v1; v2] (fresh (refusing [JStr "v1"])) = (Fulfilled tt, w')
    /\ creations evs = [JStr "v1"]
    /\ hasSyncedRef server w' = false.
Proof.
  destruct (rejected_creation_abandons_pass server post_from_violation get_challans
              vehicle [] [v1; v2] (fresh (refusing [JStr "v1"]))
              [] [v2] v1 (refusing [JStr "v1"]) (refusing [JStr "v1"])
              server_error
              eq_refl eq_refl eq_refl eq_refl eq_refl)
    as (evs & w' & Hrun & _ & Hcr & _ & Hfl).
  exists evs, w'. repeat split; assumption.
Defined.

(** C2, as the claim states it, fails: three violations lack a challan, the
    backend rejects the second creation, and two requests leave, not three. *)
Lemma rejection_leaves_requests_unsent :
  map v_id (missing [] [v1; v2; v3]) = [JStr "v1"; JStr "v2"; JStr "v3"]
  /\ creations
       (trace server
          (snd (sync vehicle [] [v1; v2; v3] (fresh (refusing [JStr "v2"])))))
     = [JStr "v1"; JStr "v2"]
  /\ creations
       (trace server
          (snd (sync vehicle [] [v1; v2; v3] (fresh (refusing [JStr "v2"])))))
     <> map v_id (missing [] [v1; v2; v3]).
Proof.
  vm_compute. repeat split. discriminate.
Qed.

(** [v2] has a challan and the backend accepts everything: requests leave
    for [v1] and [v3], in that order. *)
Lemma pass_issues_missing_in_order_witness :
  exists evs w',
    sync vehicle [challan_for (JStr "v2") 1] [v1; v2; v3] (fresh accepting)
      = (Fulfilled tt, w')
    /\ sequential evs
    /\ creations evs = [JStr "v1"; JStr "v3"].
Proof.
  destruct (pass_issues_missing_in_order server post_from_violation get_challans
              vehicle [challan_for (JStr "v2") 1] [v1; v2; v3] (fresh accepting)
              eq_refl eq_refl)
    as (evs & w' & Hrun & _ & Hseq & _ & Hall & _).
  exists evs, w'. repeat split; [assumption | assumption |].
  apply Hall. reflexivity.
Defined.

(** The scenario of the specification against an accepting backend. *)
Lemma reconciliation_idempotent_witness :
  (exists evs w',
     sync vehicle [] [v1; v2] (fresh accepting) = (Fulfilled tt, w')
     /\ creations evs = [JStr "v1"; JStr "v2"])
  /\ sync vehicle [challan_for (JStr "v1") 1; challan_for (JStr "v2") 2] [v1; v2]
       (fresh accepting)
     = (Fulfilled tt, fresh accepting).
Proof.
  destruct (reconciliation_idempotent server post_from_violation get_challans
              vehicle v1 v2 (fresh accepting) eq_refl eq_refl eq_refl)
    as [(evs & w' & Hrun & _ & Hcr & _) Hagain].
  split.
  - exists evs, w'. split; assumption.
  - apply Hagain; reflexivity.
Defined.

(** Violation 7 against a challan whose [violation_id] is the string "7":
    only violation 8 can be asked for. *)
Lemma printed_ids_cover_witness :
  toString (JNum 7) = "7"%string
  /\ exists evs w',
       sync vehicle [challan_for (JStr "7") 1]
         [violation_of (JNum 7); violation_of (JNum 8)] (fresh accepting)
         = (Fulfilled tt, w')
       /\ ~ In (JNum 7) (creations evs).
Proof.
  split; [reflexivity|].
  destruct (printed_ids_cover server post_from_violation get_challans
              vehicle [challan_for (JStr "7") 1]
              [violation_of (JNum 7); violation_of (JNum 8)] (fresh accepting)
              (violation_of (JNum 7)) (challan_for (JStr "7") 1) 7
              (or_introl eq_refl) eq_refl eq_refl)
    as (_ & evs & w' & Hrun & _ & Hnot).
  exists evs, w'. split; assumption.
Defined.

(** From 2^53 on [String] prints the fewest digits that read back as the
    Number, and from 1e21 on it prints them in exponent form: a challan
    whose [violation_id] is the plain decimal text of such an id does not
    cover it, one whose [violation_id] is what [String] prints does. *)
Lemma large_ids_print_as_the_platform_does :
  toString (JNum (2 ^ 64)) = "18446744073709552000"%string
  /\ toString (JNum (10 ^ 21)) = "1e+21"%string
  /\ covered [challan_for (JStr "1000000000000000000000") 1]
       (violation_of (JNum (10 ^ 21))) = false
  /\ covered [challan_for (JStr "1e+21") 1] (violation_of (JNum (10 ^ 21))) = true.
Proof. vm_compute. repeat split. Qed.

(** Two cards: a click on the paid one sends nothing, a click on the
    unpaid one pays challan 2. *)
Lemma pay_control_only_for_unpaid_witness :
  (exists evs w',
     click_card server get_challans post_pay [paid_challan; unpaid_challan] 0
       (fresh accepting) = (Fulfilled tt, w')
     /\ pays evs = [])
  /\ (exists evs w',
        click_card server get_challans post_pay [paid_challan; unpaid_challan] 1
          (fresh accepting) = (Fulfilled tt, w')
        /\ pays evs = [JNum 2]).
Proof.
  split.
  - destruct (pay_control_only_for_unpaid server get_challans post_pay
                [paid_challan; unpaid_challan] 0 paid_challan (fresh accepting)
                eq_refl)
      as (_ & _ & (evs & w' & Hrun & _ & Hp) & _).
    exists evs, w'. split; assumption.
  - destruct (pay_control_only_for_unpaid server get_challans post_pay
                [paid_challan; unpaid_challan] 1 unpaid_challan (fresh accepting)
                eq_refl)
      as (_ & _ & (evs & w' & Hrun & _ & Hp) & _).
    exists evs, w'. split; assumption.
Defined.

End ReconcileSpec.

(** ** The session stores *)
Module SessionSpec.
Local Open Scope list_scope.

Section WithJSON.
Variable JSON_parse : string -> option jsval.
Variable JSON_stringify : jsval -> string.

(** *** The Material UI store *)

Local Abbreviation mount := (AuthStore.mount JSON_parse JSON_stringify).
Local Abbreviation step := (AuthStore.step JSON_parse JSON_stringify).
Local Abbreviation run := (AuthStore.run JSON_parse JSON_stringify).
Local Abbreviation restore_effect := (AuthStore.restore_effect JSON_parse).
Local Abbreviation persist_effect := (AuthStore.persist_effect JSON_stringify).
Local Abbreviation commit := (AuthStore.commit JSON_stringify).

Lemma truthy_js_and (a b : jsval) :
  truthy (js_and a b) = truthy a && truthy b.
Proof. unfold js_and. destruct (truthy a) eqn:Ha; simpl; [reflexivity | exact Ha]. Qed.

(** What the first effect queues keeps credential and identity together,
    whatever the storage holds. *)
Lemma restore_effect_together (ls : gmap string string) (s : AuthStore.state) :
  AuthStore.together s -> AuthStore.together (restore_effect ls s).
Proof.
  intros Hs. unfold AuthStore.restore_effect.
  destruct (truthy (js_and _ _)) eqn:Hboth; [|exact Hs].
  rewrite truthy_js_and in Hboth. apply andb_true_iff in Hboth as [Ht Hu].
  unfold AuthStore.together. simpl. now rewrite Ht, Hu.
Qed.

Lemma js_or_idem (a b : jsval) : js_or (js_or a b) b = js_or a b.
Proof.
  unfold js_or. destruct (truthy a) eqn:Ha; [now rewrite Ha | now destruct (truthy b)].
Qed.

Lemma step_vehicle_kept (o : AuthStore.op) (p : AuthStore.state * AuthStore.env) :
  AuthStore.vehicle_kept (fst p) -> AuthStore.vehicle_kept (fst (step o p)).
Proof.
  destruct p as [s e]. intros Hs. destruct o as [payload opts| |]; simpl.
  - unfold AuthStore.login.
    destruct (member payload "access_token"), (member payload "user"); simpl; try exact Hs.
    unfold AuthStore.vehicle_kept. simpl.
    destruct (truthy (AuthStore.opt_vehicleNumber opts)) eqn:Hv; [|exact Hs].
    unfold js_or. now rewrite Hv.
  - reflexivity.
  - unfold AuthStore.restore_effect.
    destruct (truthy (js_and _ _)); [|reflexivity].
    unfold AuthStore.vehicle_kept. simpl. apply js_or_idem.
Qed.

Lemma run_snoc (ops : list AuthStore.op) (o : AuthStore.op) (ls : gmap string string) :
  run (ops ++ [o]) ls = step o (run ops ls).
Proof. unfold AuthStore.run. now rewrite fold_left_app. Qed.

Lemma run_vehicle_kept (ops : list AuthStore.op) (ls : gmap string string) :
  AuthStore.vehicle_kept (fst (run ops ls)).
Proof.
  induction ops as [|o ops IH] using rev_ind.
  - apply (step_vehicle_kept AuthStore.Reload
             (AuthStore.initial, {| AuthStore.localStorage := ls;
                                    AuthStore.api_accessToken := JNull |})).
    reflexivity.
  - rewrite run_snoc. now apply step_vehicle_kept.
Qed.

Lemma truthy_get_object (v : jsval) (k : string) :
  truthy (get v k) = true -> member v k = Some (get v k).
Proof. destruct v; simpl; try discriminate; reflexivity. Qed.

(** What [login] leaves in the cells. *)
Lemma login_state (payload : jsval) (opts : AuthStore.login_opts) (s : AuthStore.state) :
  truthy (get payload "access_token") = true ->
  truthy (get payload "user") = true ->
  AuthStore.login payload opts s =
    Some {| AuthStore.accessToken := get payload "access_token";
            AuthStore.user := get payload "user";
            AuthStore.vehicleNumber :=
              if truthy (AuthStore.opt_vehicleNumber opts)
              then AuthStore.opt_vehicleNumber opts
              else AuthStore.vehicleNumber s |}.
Proof.
  intros Ht Hu. unfold AuthStore.login.
  now rewrite (truthy_get_object _ _ Ht), (truthy_get_object _ _ Hu).
Qed.

(** Reading back what the persisting effect wrote for a signed-in state. *)
Lemma restore_persisted (s : AuthStore.state) (ls : gmap string string) :
  JSON_parse EmptyString = None ->
  truthy (AuthStore.accessToken s) = true ->
  truthy (AuthStore.user s) = true ->
  AuthStore.vehicle_kept s ->
  JSON_parse (JSON_stringify (AuthStore.stored_record s))
    = Some (AuthStore.stored_record s) ->
  restore_effect (persist_effect s ls) AuthStore.initial = s.
Proof.
  intros Hempty Ht Hu Hv Hrt.
  unfold AuthStore.persist_effect, AuthStore.writeStoredAuth.
  rewrite truthy_js_and, Ht, Hu. simpl.
  unfold AuthStore.restore_effect, AuthStore.readStoredAuth, AuthStore.getItem.
  rewrite lookup_insert_eq. simpl.
  destruct (String.eqb_spec (JSON_stringify (AuthStore.stored_record s)) EmptyString)
    as [Heq|Hne]; [rewrite Heq in Hrt; congruence|].
  simpl. rewrite Hrt. simpl. rewrite truthy_js_and, Ht, Hu. simpl.
  rewrite Hv. now destruct s.
Qed.


Lemma step_together (o : AuthStore.op) (p : AuthStore.state * AuthStore.env) :
  AuthStore.well_formed o ->
  AuthStore.together (fst p) -> AuthStore.together (fst (step o p)).
Proof.
  destruct p as [s e]. intros Ho Hs. destruct o as [payload opts| |]; simpl.
  - destruct Ho as [Ht Hu]. rewrite (login_state payload opts s Ht Hu). simpl.
    unfold AuthStore.together. simpl. now rewrite Ht, Hu.
  - reflexivity.
  - now apply restore_effect_together.
Qed.

Lemma run_together (ops : list AuthStore.op) (ls : gmap string string) :
  Forall AuthStore.well_formed ops -> AuthStore.together (fst (run ops ls)).
Proof.
  induction ops as [|o ops IH] using rev_ind; intros Hops.
  - now apply restore_effect_together.
  - apply Forall_app in Hops as [Hops Ho]. apply Forall_inv in Ho.
    rewrite run_snoc. apply step_together; auto.
Qed.

(** *** The SPA store *)

Local Abbreviation spa_mount := (SpaAuth.mount JSON_parse).
Local Abbreviation spa_step := (SpaAuth.step JSON_parse JSON_stringify).
Local Abbreviation spa_run := (SpaAuth.run JSON_parse JSON_stringify).
Local Abbreviation spa_ok := (SpaAuth.storage_ok JSON_parse).

(** The invariant of the SPA store. *)
Local Abbreviation spa_inv p :=
  (SpaAuth.together p /\ spa_ok (SpaAuth.localStorage (snd p))).

Lemma purge_no_user (ls : gmap string string) : SpaAuth.purge ls !! "user" = None.
Proof. unfold SpaAuth.purge. apply lookup_delete_eq. Qed.

Lemma purge_no_token (ls : gmap string string) :
  SpaAuth.getItem "access_token" (SpaAuth.purge ls) = JNull.
Proof.
  unfold SpaAuth.getItem, SpaAuth.purge.
  rewrite !lookup_delete_ne by discriminate. now rewrite lookup_delete_eq.
Qed.

Lemma purge_no_token_entry (ls : gmap string string) :
  SpaAuth.purge ls !! "access_token" = None.
Proof.
  unfold SpaAuth.purge.
  rewrite !lookup_delete_ne by discriminate. apply lookup_delete_eq.
Qed.

Lemma purge_ok (ls : gmap string string) : spa_ok (SpaAuth.purge ls).
Proof.
  split.
  - intros raw j H. rewrite purge_no_user in H. discriminate.
  - intros t H. rewrite purge_no_token_entry in H. discriminate.
Qed.

Lemma signed_out_together (b : bool) (e : SpaAuth.env) :
  SpaAuth.authorization e = None ->
  SpaAuth.together ({| SpaAuth.user := JNull; SpaAuth.loading := b |}, e).
Proof.
  intros He. unfold SpaAuth.together, SpaAuth.credential. simpl. rewrite He. split.
  - discriminate.
  - intros [x Hx]. discriminate.
Qed.

Lemma signed_in_together (u : jsval) (b : bool) (e : SpaAuth.env) (t : string) :
  truthy u = true ->
  SpaAuth.no_token t = false ->
  SpaAuth.authorization e = Some ("Bearer " ++ t)%string ->
  SpaAuth.together ({| SpaAuth.user := u; SpaAuth.loading := b |}, e).
Proof.
  intros Hu Ht He. unfold SpaAuth.together, SpaAuth.credential.
  cbn [fst snd SpaAuth.user]. rewrite He.
  change (SpaAuth.drop_chars 7 ("Bearer " ++ t)) with t.
  cbv zeta. rewrite Ht. split; eauto.
Qed.

Lemma spa_mount_inv (ls : gmap string string) :
  spa_ok ls -> spa_inv (spa_mount ls).
Proof.
  intros Hok. unfold SpaAuth.mount, SpaAuth.mount_effect. simpl.
  destruct (truthy (js_and _ _)) eqn:Hboth.
  - rewrite truthy_js_and in Hboth. apply andb_true_iff in Hboth as [Htok Hu].
    unfold SpaAuth.getItem in Htok, Hu |- *.
    destruct (ls !! "user") as [raw|] eqn:Hraw; [|discriminate].
    destruct (ls !! "access_token") as [t|] eqn:Ht; [|discriminate]. simpl.
    destruct (JSON_parse raw) as [u|] eqn:Hparse; simpl.
    + split; [|exact Hok].
      apply (signed_in_together u false _ t); [|now apply Hok|reflexivity].
      exact (proj1 Hok raw u Hraw Hparse).
    + split; [now apply signed_out_together | apply purge_ok].
  - split; [now apply signed_out_together | exact Hok].
Qed.

Lemma spa_establish_inv (fallback : string) (response : settled jsval)
    (p : SpaAuth.state * SpaAuth.env) :
  SpaAuth.well_formed_response JSON_parse JSON_stringify response ->
  spa_inv p ->
  spa_inv (snd (SpaAuth.establish JSON_stringify fallback response p)).
Proof.
  intros Hr Hp. destruct p as [s e]. unfold SpaAuth.establish.
  destruct response as [res|err];
    [|destruct (member err "response"); exact Hp].
  destruct Hr as (Htok & Hprint & Hu & Hback).
  rewrite (truthy_get_object _ _ Hu). simpl. split.
  - eapply signed_in_together; [exact Hu | exact Hprint | reflexivity].
  - split.
    + intros raw j. rewrite lookup_insert_eq. intros [= <-]. apply Hback.
    + intros t. rewrite !lookup_insert_ne by discriminate.
      rewrite lookup_insert_eq. now intros [= <-].
Qed.

Lemma spa_step_inv (o : SpaAuth.op) (p : SpaAuth.state * SpaAuth.env) :
  SpaAuth.well_formed JSON_parse JSON_stringify o ->
  spa_inv p -> spa_inv (spa_step o p).
Proof.
  intros Ho Hp. destruct o as [response|response| |]; simpl.
  - now apply spa_establish_inv.
  - now apply spa_establish_inv.
  - destruct p as [s e]. simpl. split; [now apply signed_out_together | apply purge_ok].
  - apply spa_mount_inv, Hp.
Qed.

Lemma spa_run_snoc (ops : list SpaAuth.op) (o : SpaAuth.op) (ls : gmap string string) :
  spa_run (ops ++ [o]) ls = spa_step o (spa_run ops ls).
Proof. unfold SpaAuth.run. now rewrite fold_left_app. Qed.

Lemma spa_run_inv (ops : list SpaAuth.op) (ls : gmap string string) :
  spa_ok ls ->
  Forall (SpaAuth.well_formed JSON_parse JSON_stringify) ops ->
  spa_inv (spa_run ops ls).
Proof.
  intros Hok. induction ops as [|o ops IH] using rev_ind; intros Hops.
  - now apply spa_mount_inv.
  - apply Forall_app in Hops as [Hops Ho]. apply Forall_inv in Ho.
    rewrite spa_run_snoc. apply spa_step_inv; auto.
Qed.

(** C8 (amended): whatever the browsing history made of page loads on any
    storage, logouts, and logins and registrations whose answer carries
    both a credential and an identity, the Material UI store holds the
    credential and the identity together or neither.  So does the SPA
    store, whose credential is the token of its bearer header, when the
    storage it starts from holds no identity text that reads back as
    nothing and no credential text that is the print of a missing token.
    An answer that carries only one of the two is stored as it is. *)
Theorem credential_and_identity_together
    (ls : gmap string string) (ops : list AuthStore.op)
    (ls' : gmap string string) (ops' : list SpaAuth.op) :
  Forall AuthStore.well_formed ops ->
  SpaAuth.storage_ok JSON_parse ls' ->
  Forall (SpaAuth.well_formed JSON_parse JSON_stringify) ops' ->
  AuthStore.together (fst (run ops ls))
  /\ SpaAuth.together (spa_run ops' ls').
Proof.
  intros Hops Hok Hops'. split.
  - now apply run_together.
  - now apply spa_run_inv.
Qed.

(** *** Malformed records *)

Lemma malformed_not_restored (ls : gmap string string) (raw : string) :
  ls !! AuthStore.STORAGE_KEY = Some raw ->
  AuthStore.malformed JSON_parse raw ->
  restore_effect ls AuthStore.initial = AuthStore.initial.
Proof.
  intros Hraw Hbad.
  unfold AuthStore.restore_effect, AuthStore.readStoredAuth, AuthStore.getItem.
  rewrite Hraw. simpl. unfold AuthStore.malformed in Hbad.
  destruct (String.eqb raw EmptyString); simpl; [reflexivity|].
  destruct (JSON_parse raw) as [v|]; simpl; [|reflexivity].
  rewrite truthy_js_and. now destruct Hbad as [-> | ->]; rewrite ?andb_false_r.
Qed.

Lemma nothing_to_restore (ls : gmap string string) :
  ls !! AuthStore.STORAGE_KEY = None ->
  restore_effect ls AuthStore.initial = AuthStore.initial.
Proof.
  intros Hraw.
  unfold AuthStore.restore_effect, AuthStore.readStoredAuth, AuthStore.getItem.
  now rewrite Hraw.
Qed.

Lemma mount_signed_out (ls : gmap string string) :
  restore_effect ls AuthStore.initial = AuthStore.initial ->
  mount ls =
    (AuthStore.initial,
     {| AuthStore.localStorage := delete AuthStore.STORAGE_KEY ls;
        AuthStore.api_accessToken := JNull |}).
Proof.
  intros Hr. unfold AuthStore.mount. rewrite Hr.
  unfold AuthStore.commit, AuthStore.persist_effect, AuthStore.writeStoredAuth.
  simpl. now rewrite delete_delete_eq.
Qed.

(** C5 (amended): on a malformed record both stores restore to a signed-out
    session, and so does a second restore; nothing is thrown.  The Material
    UI store removes the record in every such case; the SPA store removes
    its entries only when a credential and an identity text are stored and
    the text does not parse, and leaves the storage alone when an entry is
    missing. *)
Theorem restore_of_malformed_record
    (ls : gmap string string) (raw : string) (ls' : gmap string string) :
  ls !! AuthStore.STORAGE_KEY = Some raw ->
  AuthStore.malformed JSON_parse raw ->
  SpaAuth.malformed JSON_parse ls' ->
  let signed_out :=
    (AuthStore.initial,
     {| AuthStore.localStorage := delete AuthStore.STORAGE_KEY ls;
        AuthStore.api_accessToken := JNull |}) in
  let kept :=
    if truthy (js_and (SpaAuth.getItem "access_token" ls') (SpaAuth.getItem "user" ls'))
    then SpaAuth.purge ls' else ls' in
  let spa_signed_out :=
    ({| SpaAuth.user := JNull; SpaAuth.loading := false |},
     {| SpaAuth.localStorage := kept; SpaAuth.authorization := None |}) in
  (mount ls = signed_out
   /\ mount (delete AuthStore.STORAGE_KEY ls) = signed_out)
  /\ (spa_mount ls' = spa_signed_out
      /\ spa_mount kept = spa_signed_out).
Proof.
  intros Hraw Hbad Hbad'. cbv zeta. split; [split|].
  - apply mount_signed_out. now apply (malformed_not_restored ls raw).
  - rewrite mount_signed_out by (apply nothing_to_restore, lookup_delete_eq).
    now rewrite delete_delete_eq.
  - assert (spa_mount ls' =
      ({| SpaAuth.user := JNull; SpaAuth.loading := false |},
       {| SpaAuth.localStorage :=
            if truthy (js_and (SpaAuth.getItem "access_token" ls')
                              (SpaAuth.getItem "user" ls'))
            then SpaAuth.purge ls' else ls';
          SpaAuth.authorization := None |})) as Hfirst.
    { unfold SpaAuth.mount, SpaAuth.mount_effect. simpl.
      destruct (truthy (js_and _ _)) eqn:Hboth; [|reflexivity].
      destruct Hbad' as [Hno|Hparse]; [congruence|]. now rewrite Hparse. }
    split; [exact Hfirst|].
    destruct (truthy (js_and _ _)) eqn:Hboth; [|exact Hfirst].
    unfold SpaAuth.mount, SpaAuth.mount_effect. simpl.
    rewrite purge_no_token. reflexivity.
Qed.

End WithJSON.

(** *** Runs with the small JSON codec *)
Import Samples.

(** C5, as the claim states it, fails on the SPA store: with an identity
    stored and the credential missing, restoring signs nobody in and the
    stored identity stays where it was. *)
Lemma spa_keeps_identity_without_credential :
  SpaAuth.malformed MiniJSON.parse spa_no_credential
  /\ fst (SpaAuth.mount MiniJSON.parse spa_no_credential) = spa_signed_out
  /\ SpaAuth.localStorage (snd (SpaAuth.mount MiniJSON.parse spa_no_credential))
       !! "user" = Some (MiniJSON.stringify owner)
  /\ SpaAuth.localStorage (snd (SpaAuth.mount MiniJSON.parse spa_no_credential))
       !! "user" <> None.
Proof.
  split; [left; reflexivity|]. vm_compute. repeat split. discriminate.
Qed.

(** Both stores, opened on a record that was cut off in the middle. *)
Lemma restore_of_malformed_record_witness :
  MiniJSON.parse truncated = None
  /\ fst (AuthStore.mount MiniJSON.parse MiniJSON.stringify truncated_storage)
     = AuthStore.initial
  /\ AuthStore.localStorage
       (snd (AuthStore.mount MiniJSON.parse MiniJSON.stringify truncated_storage))
       !! AuthStore.STORAGE_KEY = None
  /\ SpaAuth.mount MiniJSON.parse spa_truncated_storage
     = (spa_signed_out,
        {| SpaAuth.localStorage := SpaAuth.purge spa_truncated_storage;
           SpaAuth.authorization := None |}).
Proof.
  destruct (restore_of_malformed_record MiniJSON.parse MiniJSON.stringify
              truncated_storage truncated spa_truncated_storage
              eq_refl
              ltac:(vm_compute; exact I)
              ltac:(right; vm_compute; reflexivity))
    as [[Hclean _] [Hspa _]].
  split; [vm_compute; reflexivity|].
  rewrite Hclean. split; [reflexivity|]. split; [apply lookup_delete_eq|].
  exact Hspa.
Defined.



(** C8, as the claim states it, fails in both stores: a login whose answer
    carries a credential and no identity leaves the credential alone in
    the Material UI store, and one whose answer carries an identity and no
    credential leaves the identity alone in the SPA, under a header that
    reads [Bearer undefined]. *)
Lemma half_an_answer_is_stored_as_it_is :
  truthy (AuthStore.accessToken
            (fst (AuthStore.run MiniJSON.parse MiniJSON.stringify token_only ∅)))
  = true
  /\ truthy (AuthStore.user
               (fst (AuthStore.run MiniJSON.parse MiniJSON.stringify token_only ∅)))
     = false
  /\ ~ AuthStore.together
         (fst (AuthStore.run MiniJSON.parse MiniJSON.stringify token_only ∅))
  /\ truthy (SpaAuth.user
               (fst (SpaAuth.run MiniJSON.parse MiniJSON.stringify identity_only ∅)))
     = true
  /\ SpaAuth.authorization
       (snd (SpaAuth.run MiniJSON.parse MiniJSON.stringify identity_only ∅))
     = Some "Bearer undefined"%string
  /\ ~ SpaAuth.together
         (SpaAuth.run MiniJSON.parse MiniJSON.stringify identity_only ∅).
Proof.
  split; [reflexivity|]. split; [reflexivity|]. split.
  { unfold AuthStore.together. vm_compute. discriminate. }
  split; [reflexivity|]. split; [reflexivity|].
  unfold SpaAuth.together. intros [Hthere _].
  specialize (Hthere eq_refl). vm_compute in Hthere.
  destruct Hthere as [t Ht]. discriminate.
Qed.

(** Two browsing histories, one per store, the first of them starting on
    a cut-off record. *)
Lemma credential_and_identity_together_witness :
  AuthStore.together
    (fst (AuthStore.run MiniJSON.parse MiniJSON.stringify
            [AuthStore.Login login_body with_vehicle; AuthStore.Reload;
             AuthStore.Logout; AuthStore.Reload]
            truncated_storage))
  /\ SpaAuth.together
       (SpaAuth.run MiniJSON.parse MiniJSON.stringify
          [SpaAuth.Login login_response; SpaAuth.Reload;
           SpaAuth.Login (Rejected DemoBackend.server_error); SpaAuth.Logout;
           SpaAuth.Register login_response]
          spa_no_credential).
Proof.
  apply (credential_and_identity_together MiniJSON.parse MiniJSON.stringify).
  - repeat (constructor 2; [first [exact I | split; reflexivity]|]).
    constructor 1.
  - split.
    + intros raw j Hraw. vm_compute in Hraw. injection Hraw as <-.
      vm_compute. now intros [= <-].
    + intros t Ht. vm_compute in Ht. discriminate.
  - assert (SpaAuth.well_formed_response MiniJSON.parse MiniJSON.stringify
              login_response) as Hok.
    { split; [reflexivity|]. split; [reflexivity|]. split; [reflexivity|].
      vm_compute. now intros j [= <-]. }
    repeat (constructor 2; [first [exact Hok | exact I]|]).
    constructor 1.
Defined.

End SessionSpec.

(** ** The Material UI store, its storage and the API client *)
Module StoreProps.
Local Open Scope list_scope.

Section WithJSON.
Variable JSON_parse : string -> option jsval.
Variable JSON_stringify : jsval -> string.

Local Abbreviation mount := (AuthStore.mount JSON_parse JSON_stringify).
Local Abbreviation step := (AuthStore.step JSON_parse JSON_stringify).
Local Abbreviation run := (AuthStore.run JSON_parse JSON_stringify).
Local Abbreviation commit := (AuthStore.commit JSON_stringify).

(** What the record under the storage key has to be for a state. *)
Local Abbreviation record_of s :=
  (if AuthStore.isAuthenticated (AuthStore.value s)
   then Some (JSON_stringify (AuthStore.stored_record s)) else None).

Lemma commit_record (s : AuthStore.state) (e : AuthStore.env) :
  AuthStore.localStorage (commit s e) !! AuthStore.STORAGE_KEY = record_of s.
Proof.
  unfold AuthStore.commit, AuthStore.persist_effect, AuthStore.writeStoredAuth.
  simpl. destruct (truthy (js_and _ _)); simpl.
  - apply lookup_insert_eq.
  - apply lookup_delete_eq.
Qed.

Lemma commit_other (s : AuthStore.state) (e : AuthStore.env) (k : string) :
  k <> AuthStore.STORAGE_KEY ->
  AuthStore.localStorage (commit s e) !! k = AuthStore.localStorage e !! k.
Proof.
  intros Hk.
  unfold AuthStore.commit, AuthStore.persist_effect, AuthStore.writeStoredAuth.
  simpl. destruct (truthy (js_and _ _)); simpl.
  - now apply lookup_insert_ne.
  - now apply lookup_delete_ne.
Qed.

(** Every operation but a login that throws ends with a commit of the
    state it leads to. *)
Lemma step_commits (o : AuthStore.op) (p : AuthStore.state * AuthStore.env) :
  step o p = p \/ exists e, snd (step o p) = commit (fst (step o p)) e.
Proof.
  destruct p as [s e]. destruct o as [payload opts| |]; simpl.
  - destruct (AuthStore.login payload opts s); [right; now exists e | now left].
  - right. now exists e.
  - right. eexists. reflexivity.
Qed.

Lemma store_run_snoc (ops : list AuthStore.op) (o : AuthStore.op)
    (ls : gmap string string) :
  run (ops ++ [o]) ls = step o (run ops ls).
Proof. unfold AuthStore.run. now rewrite fold_left_app. Qed.

(** After any history the browser holds what the last commit wrote. *)
Lemma run_commits (ops : list AuthStore.op) (ls : gmap string string) :
  exists e, snd (run ops ls) = commit (fst (run ops ls)) e.
Proof.
  induction ops as [|o ops IH] using rev_ind.
  - eexists. reflexivity.
  - rewrite store_run_snoc. destruct (step_commits o (run ops ls)) as [-> | H]; assumption.
Qed.

(** The stored record mirrors the session: after any history it is there
    exactly when the session is authenticated, and it is then the text of
    the session's three values. *)
Theorem storage_mirrors_session (ops : list AuthStore.op) (ls : gmap string string) :
  AuthStore.localStorage (snd (run ops ls)) !! AuthStore.STORAGE_KEY
  = if AuthStore.isAuthenticated (AuthStore.value (fst (run ops ls)))
    then Some (JSON_stringify (AuthStore.stored_record (fst (run ops ls))))
    else None.
Proof.
  destruct (run_commits ops ls) as [e ->]. apply commit_record.
Qed.

Lemma step_other (o : AuthStore.op) (p : AuthStore.state * AuthStore.env) (k : string) :
  k <> AuthStore.STORAGE_KEY ->
  AuthStore.localStorage (snd (step o p)) !! k = AuthStore.localStorage (snd p) !! k.
Proof.
  intros Hk. destruct p as [s e]. destruct o as [payload opts| |];
    unfold AuthStore.step.
  - destruct (AuthStore.login payload opts s); [now apply commit_other | reflexivity].
  - now apply commit_other.
  - unfold AuthStore.mount. cbn [snd].
    rewrite !commit_other by assumption. reflexivity.
Qed.

(** The store writes under its own key only: every other entry of the
    storage is, after any history, what it was when the page was opened. *)
Theorem other_entries_untouched
    (ops : list AuthStore.op) (ls : gmap string string) (k : string) :
  k <> AuthStore.STORAGE_KEY ->
  AuthStore.localStorage (snd (run ops ls)) !! k = ls !! k.
Proof.
  intros Hk. induction ops as [|o ops IH] using rev_ind.
  - unfold AuthStore.run, AuthStore.mount. cbn [fold_left snd].
    rewrite !commit_other by assumption. reflexivity.
  - rewrite store_run_snoc, step_other by assumption. exact IH.
Qed.

(** The token of the API client follows the session. *)
Lemma api_token_follows_session (ops : list AuthStore.op) (ls : gmap string string) :
  AuthStore.api_accessToken (snd (run ops ls))
  = js_or (AuthStore.accessToken (fst (run ops ls))) JNull.
Proof. destruct (run_commits ops ls) as [e ->]. reflexivity. Qed.

Lemma assoc_set_field_eq (k : string) (x : jsval) (fs : list (string * jsval)) :
  assoc k (ApiClient.set_field k x fs) = x.
Proof.
  induction fs as [|[k' v] fs IH]; simpl.
  - now rewrite String.eqb_refl.
  - destruct (String.eqb k k') eqn:Hk; simpl; rewrite Hk; [reflexivity | exact IH].
Qed.

Lemma assoc_set_field_ne (k k' : string) (x : jsval) (fs : list (string * jsval)) :
  k' <> k -> assoc k' (ApiClient.set_field k x fs) = assoc k' fs.
Proof.
  intros Hne. induction fs as [|[k0 v] fs IH]; simpl.
  - destruct (String.eqb_spec k' k); [contradiction | reflexivity].
  - destruct (String.eqb_spec k k0) as [<-|Hk0]; simpl.
    + destruct (String.eqb_spec k' k); [contradiction | reflexivity].
    + destruct (String.eqb k' k0); [reflexivity | exact IH].
Qed.

(** After any history, a request that goes through the client carries
    [Bearer] and the session's credential when the session holds one, with
    every other header as the caller set it; when the session holds none
    the request leaves as the caller made it. *)
Theorem requests_carry_the_credential
    (ops : list AuthStore.op) (ls : gmap string string) (c : ApiClient.config) :
  let s := fst (run ops ls) in
  let c' := ApiClient.interceptor (AuthStore.api_accessToken (snd (run ops ls))) c in
  if truthy (AuthStore.accessToken s) then
    ApiClient.header "Authorization" c'
      = JStr ("Bearer " ++ toString (AuthStore.accessToken s))%string
    /\ ApiClient.url c' = ApiClient.url c
    /\ forall k, k <> "Authorization"%string ->
         ApiClient.header k c' = ApiClient.header k c
  else c' = c.
Proof.
  cbv zeta. rewrite api_token_follows_session.
  unfold js_or, ApiClient.interceptor.
  destruct (truthy (AuthStore.accessToken (fst (run ops ls)))) eqn:Ht.
  - rewrite Ht. unfold ApiClient.header. simpl. split; [|split].
    + apply assoc_set_field_eq.
    + reflexivity.
    + intros k Hk. rewrite assoc_set_field_ne by assumption.
      now destruct (ApiClient.headers c).
  - reflexivity.
Qed.

(** Logging out, after any history: the session is the empty one, the
    stored record and the client's token are gone, every guarded route
    sends to the login page, and a reload finds nobody signed in. *)
Theorem logout_signs_out_for_good
    (ops : list AuthStore.op) (ls : gmap string string)
    (allowedRoles : option (list jsval)) :
  let p := run (ops ++ [AuthStore.Logout]) ls in
  fst p = AuthStore.initial
  /\ AuthStore.localStorage (snd p) !! AuthStore.STORAGE_KEY = None
  /\ AuthStore.api_accessToken (snd p) = JNull
  /\ Guard.ProtectedRoute (AuthStore.value (fst p)) allowedRoles = Guard.RedirectLogin
  /\ fst (step AuthStore.Reload p) = AuthStore.initial.
Proof.
  cbv zeta. rewrite store_run_snoc. destruct (run ops ls) as [s e].
  change (step AuthStore.Logout (s, e))
    with (AuthStore.initial, commit AuthStore.initial e).
  cbn [fst snd].
  split; [reflexivity|]. split; [now rewrite commit_record|].
  split; [reflexivity|]. split; [reflexivity|].
  unfold AuthStore.step, AuthStore.mount. cbn [fst snd].
  unfold AuthStore.restore_effect, AuthStore.readStoredAuth, AuthStore.getItem.
  now rewrite commit_record.
Qed.

End WithJSON.
End StoreProps.

(** ** The SPA store *)
Module SpaStoreProps.
Local Open Scope list_scope.

Section WithJSON.
Variable JSON_parse : string -> option jsval.
Variable JSON_stringify : jsval -> string.

Local Abbreviation mount := (SpaAuth.mount JSON_parse).
Local Abbreviation step := (SpaAuth.step JSON_parse JSON_stringify).
Local Abbreviation run := (SpaAuth.run JSON_parse JSON_stringify).
Local Abbreviation establish := (SpaAuth.establish JSON_stringify).

Lemma spa_store_run_snoc (ops : list SpaAuth.op) (o : SpaAuth.op)
    (ls : gmap string string) :
  run (ops ++ [o]) ls = step o (run ops ls).
Proof. unfold SpaAuth.run. now rewrite fold_left_app. Qed.

(** A login or a registration is all or nothing: either the session, the
    bearer header and the storage stay exactly as they were, or the answer
    carried a body and then the identity, the header and the three stored
    entries are all set from it. *)
Theorem establish_all_or_nothing
    (fallback : string) (response : settled jsval)
    (p : SpaAuth.state * SpaAuth.env) :
  let p' := snd (establish fallback response p) in
  p' = p
  \/ exists res,
       response = Fulfilled res
       /\ SpaAuth.user (fst p') = get (get res "data") "user"
       /\ SpaAuth.authorization (snd p')
          = Some ("Bearer " ++ toString (get (get res "data") "access_token"))%string
       /\ SpaAuth.localStorage (snd p') !! "access_token"
          = Some (toString (get (get res "data") "access_token"))
       /\ SpaAuth.localStorage (snd p') !! "refresh_token"
          = Some (toString (get (get res "data") "refresh_token"))
       /\ SpaAuth.localStorage (snd p') !! "user"
          = Some (JSON_stringify (get (get res "data") "user"))
       /\ fst (establish fallback response p)
          = Fulfilled {| SpaAuth.success := true; SpaAuth.error := JUndefined |}.
Proof.
  destruct p as [s e]. cbv zeta. unfold SpaAuth.establish.
  destruct response as [res|err].
  - destruct (member (get res "data") "user") as [userData|] eqn:Hm.
    + right. exists res. cbn [fst snd SpaAuth.user SpaAuth.authorization SpaAuth.localStorage].
      assert (userData = get (get res "data") "user") as ->.
      { unfold member in Hm.
        destruct (get res "data"); try discriminate; now injection Hm as <-. }
      split; [reflexivity|]. split; [reflexivity|]. split; [reflexivity|].
      split; [|split; [|split]]; try reflexivity.
      * rewrite !lookup_insert_ne by discriminate. apply lookup_insert_eq.
      * rewrite lookup_insert_ne by discriminate. apply lookup_insert_eq.
      * apply lookup_insert_eq.
    + left. reflexivity.
  - left. destruct (member err "response"); reflexivity.
Qed.

(** What a refused login tells the form: the message of the backend when
    it sent one, the fallback otherwise; and the session is untouched. *)
Theorem refused_login_reports
    (err r : jsval) (p : SpaAuth.state * SpaAuth.env) :
  member err "response" = Some r ->
  exists msg,
    SpaAuth.login JSON_stringify (Rejected err) p
      = (Fulfilled {| SpaAuth.success := false; SpaAuth.error := msg |}, p)
    /\ truthy msg = true
    /\ (truthy (get (get r "data") "message") = true ->
        msg = get (get r "data") "message")
    /\ (truthy (get (get r "data") "message") = false ->
        msg = JStr "Login failed").
Proof.
  intros Hr. unfold SpaAuth.login, SpaAuth.establish. destruct p as [s e].
  rewrite Hr. eexists. split; [reflexivity|]. unfold js_or.
  destruct (truthy (get (get r "data") "message")) eqn:Hm.
  - split; [exact Hm|]. split; [reflexivity | discriminate].
  - split; [reflexivity|]. split; [discriminate | reflexivity].
Qed.

(** The loading flag is off in every state the mount effect has left. *)
Lemma run_not_loading (ops : list SpaAuth.op) (ls : gmap string string) :
  SpaAuth.loading (fst (run ops ls)) = false.
Proof.
  assert (forall ls0, SpaAuth.loading (fst (mount ls0)) = false) as Hmount.
  { intros ls0. unfold SpaAuth.mount, SpaAuth.mount_effect. simpl.
    destruct (truthy (js_and _ _)); [|reflexivity].
    destruct (JSON_parse _); reflexivity. }
  induction ops as [|o ops IH] using rev_ind; [apply Hmount|].
  rewrite spa_store_run_snoc. destruct (run ops ls) as [s e]. simpl in IH.
  destruct o as [response|response| |]; simpl.
  - unfold SpaAuth.login, SpaAuth.establish.
    destruct response as [res|err].
    + destruct (member (get res "data") "user"); [exact IH|].
      simpl. exact IH.
    + destruct (member err "response"); exact IH.
  - unfold SpaAuth.register, SpaAuth.establish.
    destruct response as [res|err].
    + destruct (member (get res "data") "user"); [exact IH|].
      simpl. exact IH.
    + destruct (member err "response"); exact IH.
  - exact IH.
  - apply Hmount.
Qed.

(** A page load of the SPA renders twice: first with the initial state,
    the mount effect not yet run, then with what the effect found.  The
    guard shows the loading screen on the first render, whatever the route
    allows, and on no other: in the state the effect leaves, and after any
    logins, registrations, logouts and further completed loads, it shows
    the page, sends to the login page or sends home, and it sends to the
    login page when nobody is signed in. *)
Theorem guard_decides_after_mount
    (ops : list SpaAuth.op) (ls : gmap string string)
    (allowedRoles : option (list jsval)) :
  let first_render := SpaAuth.initial in
  let auth := fst (run ops ls) in
  Guard.SpaProtectedRoute first_render allowedRoles = Guard.LoadingScreen
  /\ (forall ls0,
        mount ls0
        = SpaAuth.mount_effect JSON_parse
            (first_render,
             {| SpaAuth.localStorage := ls0; SpaAuth.authorization := None |}))
  /\ Guard.SpaProtectedRoute auth allowedRoles <> Guard.LoadingScreen
  /\ (truthy (SpaAuth.user auth) = false ->
      Guard.SpaProtectedRoute auth allowedRoles = Guard.RedirectLogin).
Proof.
  cbv zeta. split; [reflexivity|]. split; [reflexivity|].
  unfold Guard.SpaProtectedRoute. rewrite run_not_loading.
  destruct (truthy (SpaAuth.user (fst (run ops ls)))); simpl.
  - split; [|discriminate].
    destruct (_ && _); discriminate.
  - split; [discriminate | reflexivity].
Qed.

Lemma purge_lookup (ls : gmap string string) (k : string) :
  SpaAuth.purge ls !! k
  = if decide (k = "access_token" \/ k = "refresh_token" \/ k = "user")
    then None else ls !! k.
Proof.
  unfold SpaAuth.purge.
  destruct (decide (k = "user")) as [->|Hu].
  { rewrite lookup_delete_eq. now rewrite decide_True by auto. }
  rewrite lookup_delete_ne by congruence.
  destruct (decide (k = "refresh_token")) as [->|Hr].
  { rewrite lookup_delete_eq. now rewrite decide_True by auto. }
  rewrite lookup_delete_ne by congruence.
  destruct (decide (k = "access_token")) as [->|Ha].
  { rewrite lookup_delete_eq. now rewrite decide_True by auto. }
  rewrite lookup_delete_ne by congruence.
  rewrite decide_False; [reflexivity|]. intros [H|[H|H]]; contradiction.
Qed.

Lemma spa_mount_without_token (ls : gmap string string) :
  ls !! "access_token" = None ->
  mount ls =
    ({| SpaAuth.user := JNull; SpaAuth.loading := false |},
     {| SpaAuth.localStorage := ls; SpaAuth.authorization := None |}).
Proof.
  intros Ht. unfold SpaAuth.mount, SpaAuth.mount_effect, SpaAuth.getItem.
  simpl. now rewrite Ht.
Qed.

(** Logging out of the SPA, after any history: nobody is signed in, the
    bearer header and the three stored entries are gone, and a reload
    changes nothing. *)
Theorem spa_logout_signs_out_for_good
    (ops : list SpaAuth.op) (ls : gmap string string) :
  let p := run (ops ++ [SpaAuth.Logout]) ls in
  SpaAuth.user (fst p) = JNull
  /\ SpaAuth.authorization (snd p) = None
  /\ SpaAuth.localStorage (snd p) !! "access_token" = None
  /\ SpaAuth.localStorage (snd p) !! "refresh_token" = None
  /\ SpaAuth.localStorage (snd p) !! "user" = None
  /\ step SpaAuth.Reload p = p.
Proof.
  cbv zeta. rewrite spa_store_run_snoc.
  pose proof (run_not_loading ops ls) as Hl.
  destruct (run ops ls) as [s e]. simpl in Hl.
  unfold SpaAuth.step at 2 3 4 5 6 7. unfold SpaAuth.logout. cbn [fst snd].
  cbn [SpaAuth.user SpaAuth.authorization SpaAuth.localStorage].
  rewrite !purge_lookup. repeat (split; [reflexivity|]).
  unfold SpaAuth.step. cbn [snd SpaAuth.localStorage].
  rewrite spa_mount_without_token by (now rewrite purge_lookup).
  unfold SpaAuth.logout. now rewrite Hl.
Qed.

(** Reloading right after a login restores the same session: the same
    identity and the same bearer header, when the credential does not
    print as the empty text and the platform reads the stored identity
    back as it was written and rejects the empty text. *)
Theorem spa_session_round_trip
    (ops : list SpaAuth.op) (ls : gmap string string) (res : jsval) :
  let u := get (get res "data") "user" in
  let tok := get (get res "data") "access_token" in
  let p := step (SpaAuth.Login (Fulfilled res)) (run ops ls) in
  truthy u = true ->
  toString tok <> EmptyString ->
  JSON_parse EmptyString = None ->
  JSON_parse (JSON_stringify u) = Some u ->
  SpaAuth.user (fst p) = u
  /\ SpaAuth.authorization (snd p) = Some ("Bearer " ++ toString tok)%string
  /\ step SpaAuth.Reload p = p.
Proof.
  cbv zeta. intros Hu Htok Hempty Hback.
  pose proof (run_not_loading ops ls) as Hl.
  destruct (run ops ls) as [s e]. simpl in Hl.
  assert (member (get res "data") "user" = Some (get (get res "data") "user")) as Hm.
  { destruct (get res "data"); try discriminate; reflexivity. }
  assert (step (SpaAuth.Login (Fulfilled res)) (s, e) =
    ({| SpaAuth.user := get (get res "data") "user";
        SpaAuth.loading := SpaAuth.loading s |},
     {| SpaAuth.localStorage :=
          <["user" := JSON_stringify (get (get res "data") "user")]>
            (<["refresh_token" := toString (get (get res "data") "refresh_token")]>
               (<["access_token" := toString (get (get res "data") "access_token")]>
                  (SpaAuth.localStorage e)));
        SpaAuth.authorization :=
          Some ("Bearer " ++ toString (get (get res "data") "access_token"))%string |}))
    as Hp.
  { unfold SpaAuth.step, SpaAuth.login, SpaAuth.establish. now rewrite Hm. }
  rewrite Hp. cbn [fst snd SpaAuth.user SpaAuth.authorization].
  split; [reflexivity|]. split; [reflexivity|].
  unfold SpaAuth.step. cbn [snd SpaAuth.localStorage].
  unfold SpaAuth.mount, SpaAuth.mount_effect, SpaAuth.getItem.
  cbn [SpaAuth.localStorage SpaAuth.authorization SpaAuth.user].
  rewrite lookup_insert_eq.
  rewrite !lookup_insert_ne by discriminate. rewrite lookup_insert_eq.
  assert (JSON_stringify (get (get res "data") "user") <> EmptyString) as Hne.
  { intros Heq. rewrite Heq in Hback. congruence. }
  apply String.eqb_neq in Htok, Hne.
  unfold js_and. cbn [truthy toString]. rewrite Htok. cbn [negb truthy].
  rewrite Hne. cbn [negb toString]. rewrite Hback. now rewrite Hl.
Qed.

Lemma establish_other (fallback : string) (response : settled jsval)
    (p : SpaAuth.state * SpaAuth.env) (k : string) :
  k <> "access_token"%string -> k <> "refresh_token"%string -> k <> "user"%string ->
  SpaAuth.localStorage (snd (snd (establish fallback response p))) !! k
  = SpaAuth.localStorage (snd p) !! k.
Proof.
  intros Ha Hr Hu. destruct p as [s e]. unfold SpaAuth.establish.
  destruct response as [res|err].
  - destruct (member (get res "data") "user"); [|reflexivity].
    cbn [snd SpaAuth.localStorage]. now rewrite !lookup_insert_ne by congruence.
  - destruct (member err "response"); reflexivity.
Qed.

Lemma mount_other (ls : gmap string string) (k : string) :
  k <> "access_token"%string -> k <> "refresh_token"%string -> k <> "user"%string ->
  SpaAuth.localStorage (snd (mount ls)) !! k = ls !! k.
Proof.
  intros Ha Hr Hu. unfold SpaAuth.mount, SpaAuth.mount_effect. simpl.
  destruct (truthy (js_and _ _)); [|reflexivity].
  destruct (JSON_parse _); [reflexivity|]. cbn [snd SpaAuth.localStorage].
  rewrite purge_lookup. rewrite decide_False; [reflexivity|].
  intros [H|[H|H]]; contradiction.
Qed.

(** The SPA store writes under its three keys only: every other entry of
    the storage is, after any history, what it was when the page was
    opened. *)
Theorem spa_other_entries_untouched
    (ops : list SpaAuth.op) (ls : gmap string string) (k : string) :
  k <> "access_token"%string -> k <> "refresh_token"%string -> k <> "user"%string ->
  SpaAuth.localStorage (snd (run ops ls)) !! k = ls !! k.
Proof.
  intros Ha Hr Hu. induction ops as [|o ops IH] using rev_ind.
  - now apply mount_other.
  - rewrite spa_store_run_snoc. rewrite <- IH.
    destruct o as [response|response| |]; unfold SpaAuth.step.
    + now apply establish_other.
    + now apply establish_other.
    + destruct (run ops ls) as [s e]. cbn [snd SpaAuth.logout SpaAuth.localStorage].
      rewrite purge_lookup. rewrite decide_False; [reflexivity|].
      intros [H|[H|H]]; contradiction.
    + now apply mount_other.
Qed.

End WithJSON.
End SpaStoreProps.

(** ** Routing *)
Module RouteProps.
Import Routes.

Lemma dashboard_route_closed (auth : AuthStore.auth_value) :
  App Dashboard auth =
    (if negb (AuthStore.isAuthenticated auth) then Redirect "/login"
     else if strict_eq_str (AuthStore.role auth) "officer" then Page "OfficialDashboard"
     else if strict_eq_str (AuthStore.role auth) "public" then Page "UserDashboard"
     else Redirect "/dashboard").
Proof.
  unfold App, DashboardSwitcher, Guard.ProtectedRoute, includes.
  destruct (AuthStore.isAuthenticated auth); simpl; [|reflexivity].
  destruct (AuthStore.role auth) as [| |b|z|t|l|fs]; simpl; try reflexivity.
  destruct (String.eqb_spec t "officer") as [->|Ho]; [reflexivity|].
  simpl. destruct (String.eqb_spec t "public") as [->|Hp]; reflexivity.
Qed.

(** What the dashboard route of the Material UI client shows, in closed
    form: the login page for a visitor, the official dashboard for an
    officer, the user dashboard for the role ["public"], and for any other
    role a redirect to the dashboard route itself, so that such a session
    is never shown a page however many redirects are followed. *)
Theorem dashboard_route_by_role (auth : AuthStore.auth_value) :
  App Dashboard auth =
    (if negb (AuthStore.isAuthenticated auth) then Redirect "/login"
     else if strict_eq_str (AuthStore.role auth) "officer" then Page "OfficialDashboard"
     else if strict_eq_str (AuthStore.role auth) "public" then Page "UserDashboard"
     else Redirect "/dashboard")
  /\ (AuthStore.isAuthenticated auth = true ->
      strict_eq_str (AuthStore.role auth) "officer" = false ->
      strict_eq_str (AuthStore.role auth) "public" = false ->
      forall fuel, settle fuel Dashboard auth = None).
Proof.
  pose proof (dashboard_route_closed auth) as Hclosed.
  split; [exact Hclosed|].
  intros Ha Ho Hp fuel. rewrite Ha, Ho, Hp in Hclosed. simpl in Hclosed.
  induction fuel as [|fuel IH]; simpl; rewrite Hclosed; [reflexivity|].
  simpl. exact IH.
Qed.

(** In the SPA every route settles on something to show after at most two
    redirects, whatever the session. *)
Theorem spa_routes_settle (r : spa_route) (auth : SpaAuth.state) :
  exists v, spa_settle 2 r auth = Some v /\ forall to, v <> Redirect to.
Proof.
  assert (forall v : view,
            match v with Redirect _ => False | _ => True end ->
            forall to, v <> Redirect to) as Hshown.
  { intros [n|t|] Hv to; [discriminate | contradiction | discriminate]. }
  destruct auth as [user loading].
  unfold spa_settle, AppRoutes, Guard.SpaProtectedRoute, dashboard_of, includes.
  destruct r, loading; cbn [SpaAuth.user SpaAuth.loading];
    destruct (truthy user) eqn:Hu; simpl;
    try (eexists; split; [reflexivity | apply Hshown; exact I]);
    destruct (get user "role") as [| |b|z|t|l|fs]; simpl; rewrite ?Hu; simpl;
    try (eexists; split; [reflexivity | apply Hshown; exact I]);
    destruct (String.eqb_spec t "officer") as [->|Ho]; simpl; rewrite ?Hu; simpl;
    try (eexists; split; [reflexivity | apply Hshown; exact I]);
    destruct (String.eqb_spec t "public") as [->|Hp]; simpl; rewrite ?Hu; simpl;
    try (eexists; split; [reflexivity | apply Hshown; exact I]).
Qed.

(** A signed-in user who opens the login page of the SPA ends on the
    dashboard of the role: the officer's, the vehicle owner's, and for any
    other role on the landing page, the guard of the user dashboard having
    sent them home. *)
Theorem spa_login_route_when_signed_in (auth : SpaAuth.state) :
  truthy (SpaAuth.user auth) = true ->
  SpaAuth.loading auth = false ->
  spa_settle 2 SpaLogin auth =
    Some (Page (if strict_eq_str (get (SpaAuth.user auth) "role") "officer"
                then "OfficerDashboard"
                else if strict_eq_str (get (SpaAuth.user auth) "role") "public"
                     then "UserDashboard" else "LandingPage")).
Proof.
  destruct auth as [user loading]. cbn [SpaAuth.user SpaAuth.loading].
  intros Hu ->.
  unfold spa_settle, AppRoutes, Guard.SpaProtectedRoute, dashboard_of, includes.
  cbn [SpaAuth.user SpaAuth.loading]. rewrite Hu.
  destruct (get user "role") as [| |b|z|t|l|fs]; simpl; rewrite ?Hu; simpl;
    try reflexivity.
  destruct (String.eqb_spec t "officer") as [->|Ho]; simpl; rewrite ?Hu; simpl;
    [reflexivity|].
  destruct (String.eqb_spec t "public") as [->|Hp]; simpl; reflexivity.
Qed.

End RouteProps.

(** ** The dashboard beyond the pass *)
Module DashboardProps.
Import Dashboard.
Local Open Scope list_scope.

Lemma error_message_truthy (err : jsval) (fallback : string) :
  fallback <> EmptyString -> truthy (error_message err fallback) = true.
Proof.
  intros Hf. unfold error_message, js_or.
  destruct (truthy (get (get (get err "response") "data") "message")) eqn:Hm;
    [exact Hm|].
  destruct (truthy (get (get (get err "response") "data") "detail")) eqn:Hd;
    [exact Hd|].
  simpl. now apply negb_true_iff, String.eqb_neq.
Qed.

Section WithBackend.
Variable Server : Type.
Variable post_from_violation : jsval -> Server -> settled unit * Server.
Variable get_challans : Server -> settled (option (list challan)) * Server.
Variable post_pay : jsval -> Server -> settled unit * Server.

Local Abbreviation world := (world Server).
Local Abbreviation load := (loadChallans Server get_challans).
Local Abbreviation legacy_load := (legacy_loadChallans Server get_challans).
Local Abbreviation pay := (handlePay Server get_challans post_pay).
Local Abbreviation effect :=
  (sync_effect Server post_from_violation get_challans).

(** Refreshing the list, in both dashboards: one request, nothing thrown.
    On an answer the list is replaced (by the empty list when the answer
    has none); on a failure the list stays and the banner gets a message.
    The newer dashboard leaves an earlier banner standing after a
    successful refresh and never touches the loading indicator; the older
    one clears the banner first and always ends with the indicator off. *)
Theorem refresh_outcomes (w : world) :
  exists w1 w2 ok,
    load w = (Fulfilled tt, w1)
    /\ legacy_load w = (Fulfilled tt, w2)
    /\ trace Server w1 = trace Server w ++ [Sent listChallans; Settled listChallans ok]
    /\ trace Server w2 = trace Server w1
    /\ loading_cell Server w1 = loading_cell Server w
    /\ loading_cell Server w2 = false
    /\ challans_cell Server w2 = challans_cell Server w1
    /\ match fst (get_challans (server Server w)) with
       | Fulfilled res =>
           challans_cell Server w1 = match res with Some l => l | None => [] end
           /\ error_cell Server w1 = error_cell Server w
           /\ error_cell Server w2 = JStr EmptyString
       | Rejected err =>
           challans_cell Server w1 = challans_cell Server w
           /\ error_cell Server w1 = error_message err "Failed to load challans"
           /\ error_cell Server w2 = error_cell Server w1
           /\ truthy (error_cell Server w1) = true
       end.
Proof.
  unfold loadChallans, legacy_loadChallans, try_finally, try_catch, bind, await.
  simpl.
  destruct (get_challans (server Server w)) as [[res|err] srv]; simpl;
    do 3 eexists; repeat (split; [reflexivity|]); simpl;
    rewrite <- ?app_assoc; repeat (split; [reflexivity|]); try reflexivity.
  now apply error_message_truthy.
Qed.

(** Paying a challan never throws.  When the backend refuses, the list is
    not fetched again, the list and the banner stay, and the action banner
    gets the backend's message or the fallback; when it accepts, the action
    banner is cleared and the list is refreshed once. *)
Theorem payment_outcomes (challanId : jsval) (w : world) :
  exists w',
    pay challanId w = (Fulfilled tt, w')
    /\ match post_pay challanId (server Server w) with
       | (Rejected err, _) =>
           trace Server w' =
             trace Server w ++ [Sent (payChallan challanId);
                                Settled (payChallan challanId) false]
           /\ actionError_cell Server w'
              = error_message err "Failed to process payment"
           /\ truthy (actionError_cell Server w') = true
           /\ challans_cell Server w' = challans_cell Server w
           /\ error_cell Server w' = error_cell Server w
       | (Fulfilled _, srv) =>
           actionError_cell Server w' = JStr EmptyString
           /\ refreshes (trace Server w') = S (refreshes (trace Server w))
           /\ exists ok,
                trace Server w' =
                  trace Server w ++ [Sent (payChallan challanId);
                                     Settled (payChallan challanId) true;
                                     Sent listChallans; Settled listChallans ok]
       end.
Proof.
  unfold handlePay, loadChallans, try_catch, bind, await, setActionError.
  simpl.
  destruct (post_pay challanId (server Server w)) as [[[]|err] srv]; simpl.
  - destruct (get_challans srv) as [[res|err] srv']; simpl;
      eexists; (split; [reflexivity|]); simpl; rewrite <- ?app_assoc;
      (split; [reflexivity|]);
      (split; [rewrite ReconcileSpec.refreshes_app; simpl; lia|]);
      eexists; reflexivity.
  - eexists. split; [reflexivity|]. simpl. rewrite <- ?app_assoc.
    split; [reflexivity|]. split; [reflexivity|].
    split; [now apply error_message_truthy|]. split; reflexivity.
Qed.


End WithBackend.
End DashboardProps.

(** ** The counting tiles and the violations of the dashboard *)
Module TileProps.
Import Dashboard DashboardStats.
Local Open Scope list_scope.

Lemma filter_split_length {A : Type} (f : A -> bool) (l : list A) :
  (length (List.filter f l) + length (List.filter (fun x => negb (f x)) l)
   = length l)%nat.
Proof.
  induction l as [|x l IH]; simpl; [reflexivity|].
  destruct (f x); simpl; lia.
Qed.

Section WithBackend.
Variable Server : Type.
Variable get_challans : Server -> settled (option (list challan)) * Server.
Variable post_pay : jsval -> Server -> settled unit * Server.

(** The counting tiles agree with the cards: paid and pending add up to
    the total, and pending is the number of pay controls that can be
    clicked. *)
Theorem tiles_count_the_cards (challans : list challan) :
  (paid (stats challans) + unpaid (stats challans) = total (stats challans))%nat
  /\ total (stats challans) = length challans
  /\ unpaid (stats challans)
     = length (List.filter (fun b => negb (disabled Server b))
                 (render_pay_controls Server get_challans post_pay challans)).
Proof.
  cbv beta iota zeta delta [stats paid unpaid total].
  pose proof (filter_split_length (fun c => strict_eq_str (c_status c) "paid")
                challans) as Hsplit.
  cbv beta in Hsplit.
  split; [lia|]. split; [reflexivity|].
  assert (length (List.filter (fun b => negb (disabled Server b))
                    (render_pay_controls Server get_challans post_pay challans))
          = length (List.filter
                      (fun c => negb (strict_eq_str (c_status c) "paid")) challans))
    as ->; [|lia].
  unfold render_pay_controls. clear Hsplit.
  induction challans as [|c l IH]; simpl; [reflexivity|].
  destruct (strict_eq_str (c_status c) "paid"); simpl; now rewrite IH.
Qed.

End WithBackend.

Section WithViolations.
Variable Server : Type.
Variable get_violations :
  jsval -> Server -> settled (option (list violation)) * Server.

Local Abbreviation loadViolations :=
  (DashboardLoad.loadViolations Server get_violations).

(** Loading the violations never throws and never raises a banner.
    Without a vehicle number nothing is asked and the list is emptied; with
    one, the backend is asked once for that number, an answer replaces the
    list (by the empty list when it has none) and a failure leaves the list
    as it was. *)
Theorem violations_load_quietly
    (vehicleNumber : jsval) (p : DashboardLoad.page Server) :
  exists p',
    loadViolations vehicleNumber p = (Fulfilled tt, p')
    /\ error_cell Server (DashboardLoad.world_of Server p')
       = error_cell Server (DashboardLoad.world_of Server p)
    /\ trace Server (DashboardLoad.world_of Server p')
       = trace Server (DashboardLoad.world_of Server p)
    /\ if truthy vehicleNumber then
         DashboardLoad.violation_queries Server p'
           = DashboardLoad.violation_queries Server p ++ [vehicleNumber]
         /\ DashboardLoad.violations_cell Server p'
            = match fst (get_violations vehicleNumber
                           (server Server (DashboardLoad.world_of Server p))) with
              | Fulfilled (Some l) => l
              | Fulfilled None => []
              | Rejected _ => DashboardLoad.violations_cell Server p
              end
       else
         DashboardLoad.violation_queries Server p'
           = DashboardLoad.violation_queries Server p
         /\ DashboardLoad.violations_cell Server p' = []
         /\ DashboardLoad.world_of Server p' = DashboardLoad.world_of Server p.
Proof.
  unfold DashboardLoad.loadViolations.
  destruct (truthy vehicleNumber); simpl.
  - destruct (get_violations vehicleNumber _) as [[[l|]|err] srv]; simpl;
      eexists; repeat split.
  - eexists; repeat split.
Qed.

End WithViolations.
End TileProps.

(** ** The login and registration pages *)
Module PageProps.
Import Pages.
Local Open Scope list_scope.

Section WithBackend.
Variable JSON_stringify : jsval -> string.
Variable Server : Type.
Variable post_login : jsval -> Server -> settled jsval * Server.
Variable post_register : jsval -> Server -> settled jsval * Server.
Variable post_validate_key : jsval -> Server -> settled jsval * Server.

Local Abbreviation app := (app Server).
Local Abbreviation login_submit :=
  (login_handleSubmit JSON_stringify Server post_login).
Local Abbreviation register_submit :=
  (register_handleSubmit JSON_stringify Server post_register post_validate_key).

(** The body of the registration request for a form. *)
Local Abbreviation register_payload f :=
  (JObj [("name", rf_name f); ("email", rf_email f);
         ("password", rf_password f);
         ("role", if strict_eq_str (rf_roleUI f) "OFFICIAL"
                  then JStr "officer" else JStr "public");
         ("vehicle_number", rf_vehicleNumber f)]).

(** Submitting the login form makes one login call with what was typed and
    ends with the form no longer loading.  When the call is refused, or
    answered without a body, the session, the storage and the router stay
    as they were and the form shows a message; when the body carries a
    credential and an identity the session holds them, with the vehicle
    number typed, or the one it had when the field was left empty, the
    record is stored, and the router goes where the visitor came from,
    the dashboard by default. *)
Theorem login_submit_outcomes
    (location_state : jsval) (f : login_form) (a : app) :
  let payload := JObj [("email", lf_email f); ("password", lf_password f)] in
  let f' := fst (login_submit location_state f a) in
  let a' := snd (login_submit location_state f a) in
  calls Server a' = calls Server a ++ [api_login payload]
  /\ lf_loading f' = false
  /\ match fst (post_login payload (server Server a)) with
     | Rejected err =>
         session Server a' = session Server a
         /\ browser Server a' = browser Server a
         /\ navigated Server a' = navigated Server a
         /\ lf_error f' = Dashboard.error_message err "Login failed"
         /\ truthy (lf_error f') = true
     | Fulfilled response =>
         (member (get response "data") "user" = None ->
          session Server a' = session Server a
          /\ browser Server a' = browser Server a
          /\ navigated Server a' = navigated Server a
          /\ lf_error f' = JStr "Login failed")
         /\ (truthy (get (get response "data") "access_token") = true ->
             truthy (get (get response "data") "user") = true ->
             session Server a' =
               {| AuthStore.accessToken := get (get response "data") "access_token";
                  AuthStore.user := get (get response "data") "user";
                  AuthStore.vehicleNumber :=
                    if truthy (lf_vehicleNumber f) then lf_vehicleNumber f
                    else AuthStore.vehicleNumber (session Server a) |}
             /\ AuthStore.localStorage (browser Server a') !! AuthStore.STORAGE_KEY
                = Some (JSON_stringify (AuthStore.stored_record (session Server a')))
             /\ navigated Server a'
                = Some (js_or (get (get location_state "from") "pathname")
                              (JStr "/dashboard"))
             /\ lf_error f' = JStr EmptyString)
     end.
Proof.
  cbv zeta. unfold login_handleSubmit.
  destruct (post_login _ (server Server a)) as [[response|err] srv]; cbn [fst].
  - destruct (AuthStore.login (get response "data") _ (session Server a))
      as [s'|] eqn:Hlogin; cbn [fst snd calls lf_loading session browser navigated lf_error].
    + split; [reflexivity|]. split; [reflexivity|]. split.
      * intros Hnone. unfold AuthStore.login in Hlogin.
        destruct (member (get response "data") "access_token") eqn:Ht;
          [|discriminate].
        rewrite Hnone in Hlogin. discriminate.
      * intros Ht Hu.
        rewrite (SessionSpec.login_state _ _ _ Ht Hu) in Hlogin.
        injection Hlogin as <-.
        split.
        { f_equal. unfold js_or. cbn [AuthStore.opt_vehicleNumber].
          destruct (truthy (lf_vehicleNumber f)) eqn:Hv; [now rewrite Hv | reflexivity]. }
        split; [|split; reflexivity].
        rewrite StoreProps.commit_record. cbn [AuthStore.value AuthStore.isAuthenticated
          AuthStore.accessToken AuthStore.user].
        now rewrite SessionSpec.truthy_js_and, Ht, Hu.
    + split; [reflexivity|]. split; [reflexivity|]. split.
      * intros _. repeat split.
      * intros Ht Hu. rewrite (SessionSpec.login_state _ _ _ Ht Hu) in Hlogin.
        discriminate.
  - cbn [fst snd calls lf_loading session browser navigated lf_error].
    repeat (split; [reflexivity|]).
    now apply DashboardProps.error_message_truthy.
Qed.

(** The key of an official is checked before anything is registered: when
    the check is refused no registration request leaves, nobody is signed
    in and the form shows a message.  A registration as a user never asks
    for the check, and the role sent is ["officer"] exactly for an official. *)
Theorem official_key_gates_registration (f : register_form) (a : app) :
  let a' := snd (register_submit f a) in
  let f' := fst (register_submit f a) in
  rf_loading f' = false
  /\ if strict_eq_str (rf_roleUI f) "OFFICIAL" then
       match fst (post_validate_key (rf_officialKey f) (server Server a)) with
       | Rejected err =>
           calls Server a'
             = calls Server a ++ [api_validateOfficialKey (rf_officialKey f)]
           /\ session Server a' = session Server a
           /\ browser Server a' = browser Server a
           /\ navigated Server a' = navigated Server a
           /\ rf_error f' = Dashboard.error_message err "Registration failed"
           /\ truthy (rf_error f') = true
       | Fulfilled _ =>
           calls Server a'
             = calls Server a ++ [api_validateOfficialKey (rf_officialKey f);
                                  api_register (register_payload f)]
           /\ get (register_payload f) "role" = JStr "officer"
       end
     else
       calls Server a' = calls Server a ++ [api_register (register_payload f)]
       /\ get (register_payload f) "role" = JStr "public".
Proof.
  cbv zeta. unfold register_handleSubmit.
  destruct (strict_eq_str (rf_roleUI f) "OFFICIAL").
  - destruct (post_validate_key _ (server Server a)) as [[ok|err] srv]; cbn [fst].
    + destruct (post_register _ srv) as [[response|err] srv'].
      * destruct (AuthStore.login _ _ _); cbn [fst snd rf_loading calls];
          rewrite <- ?app_assoc; repeat split.
      * cbn [fst snd rf_loading calls]. rewrite <- ?app_assoc. repeat split.
    + cbn [fst snd rf_loading calls session browser navigated rf_error].
      repeat (split; [reflexivity|]).
      now apply DashboardProps.error_message_truthy.
  - destruct (post_register _ (server Server a)) as [[response|err] srv'].
    + destruct (AuthStore.login _ _ _); cbn [fst snd rf_loading calls];
        repeat split.
    + cbn [fst snd rf_loading calls]. repeat split.
Qed.

(** A registration that the backend answers with a credential and an
    identity signs the visitor in with the vehicle number typed and goes to
    the dashboard route, which then shows the official dashboard to an
    officer and the user dashboard to the role ["public"] or to an identity
    without a role. *)
Theorem registration_lands_on_the_dashboard
    (f : register_form) (a : app) (response : jsval) (srv : Server) :
  strict_eq_str (rf_roleUI f) "OFFICIAL" = false ->
  post_register (register_payload f) (server Server a) = (Fulfilled response, srv) ->
  truthy (get (get response "data") "access_token") = true ->
  truthy (get (get response "data") "user") = true ->
  let a' := snd (register_submit f a) in
  let role := get (get (get response "data") "user") "role" in
  navigated Server a' = Some (JStr "/dashboard")
  /\ Routes.resolve "/dashboard" = Some Routes.Dashboard
  /\ AuthStore.vehicleNumber (session Server a')
     = (if truthy (rf_vehicleNumber f) then rf_vehicleNumber f
        else AuthStore.vehicleNumber (session Server a))
  /\ Routes.App Routes.Dashboard (AuthStore.value (session Server a'))
     = if strict_eq_str role "officer" then Routes.Page "OfficialDashboard"
       else if negb (truthy role) || strict_eq_str role "public"
            then Routes.Page "UserDashboard"
            else Routes.Redirect "/dashboard".
Proof.
  intros Hrole Hpost Ht Hu. cbv zeta. unfold register_handleSubmit.
  rewrite Hrole in *. rewrite Hpost.
  rewrite (SessionSpec.login_state _ _ _ Ht Hu).
  cbn [snd navigated session AuthStore.vehicleNumber AuthStore.opt_vehicleNumber].
  split; [reflexivity|]. split; [reflexivity|]. split; [reflexivity|].
  rewrite RouteProps.dashboard_route_closed.
  unfold AuthStore.value. cbn [AuthStore.isAuthenticated AuthStore.role
    AuthStore.accessToken AuthStore.user].
  rewrite SessionSpec.truthy_js_and, Ht, Hu. cbn [andb negb].
  unfold js_or.
  destruct (truthy (get (get (get response "data") "user") "role")) eqn:Hr;
    cbn [negb orb]; [reflexivity|].
  destruct (get (get (get response "data") "user") "role") as [| |b|z|t|l|fs];
    try reflexivity.
  simpl in Hr. apply negb_false_iff, String.eqb_eq in Hr. subst t. reflexivity.
Qed.

(** Logging out from the navigation bar, whatever the session was: no
    request leaves, the session is the empty one, the stored record and
    the client's token are gone, and the router is sent to the login
    route, which shows the login page; the dashboard route would send
    there too. *)
Theorem navbar_logout_ends_on_login (a : app) :
  let a' := handleLogout JSON_stringify Server a in
  calls Server a' = calls Server a
  /\ server Server a' = server Server a
  /\ session Server a' = AuthStore.initial
  /\ AuthStore.localStorage (browser Server a') !! AuthStore.STORAGE_KEY = None
  /\ AuthStore.api_accessToken (browser Server a') = JNull
  /\ (exists to,
        navigated Server a' = Some (JStr to)
        /\ Routes.resolve to = Some Routes.LoginRoute)
  /\ Routes.App Routes.LoginRoute (AuthStore.value (session Server a'))
     = Routes.Page "LoginPage"
  /\ Routes.App Routes.Dashboard (AuthStore.value (session Server a'))
     = Routes.Redirect "/login".
Proof.
  cbv zeta. unfold handleLogout.
  cbn [calls server session browser navigated].
  repeat split.
  - unfold AuthStore.commit, AuthStore.persist_effect, AuthStore.writeStoredAuth.
    cbn. apply lookup_delete_eq.
  - exists "/login"%string. split; reflexivity.
Qed.

End WithBackend.
End PageProps.

(** ** The registration page of the SPA *)
Module SpaPageProps.
Import SpaPages.
Local Open Scope list_scope.

Lemma member_of_truthy (v : jsval) (k : string) :
  truthy v = true -> member v k = Some (get v k).
Proof. destruct v; simpl; try discriminate; reflexivity. Qed.

Section WithBackend.
Variable JSON_parse : string -> option jsval.
Variable JSON_stringify : jsval -> string.
Variable Server : Type.
Variable post_register : jsval -> Server -> settled jsval * Server.

Local Abbreviation app := (app Server).
Local Abbreviation submit :=
  (handleSubmit JSON_parse JSON_stringify Server post_register).

(** The body of the registration request for a form. *)
Local Abbreviation payload_of f :=
  (JObj [("name", name f); ("email", email f);
         ("password", JStr (password f)); ("role", role f)]).

(** A registration request leaves exactly when the two passwords agree and
    count at least six code units.  Otherwise the handler returns at once:
    the session, the storage and the loading indicator stay as they were
    and the form says which check failed, the disagreement first. *)
Theorem password_checks_come_first (f : register_form) (a : app) :
  let a' := snd (snd (submit f a)) in
  let f' := fst (snd (submit f a)) in
  if String.eqb (password f) (confirmPassword f) then
    if (6 <=? js_length (password f))%nat then
      calls Server a' = calls Server a ++ [payload_of f]
    else
      submit f a =
        (Fulfilled tt,
         (with_error (JStr "Password must be at least 6 characters") f, a))
  else
    submit f a = (Fulfilled tt, (with_error (JStr "Passwords do not match") f, a)).
Proof.
  cbv zeta. unfold handleSubmit.
  destruct (String.eqb (password f) (confirmPassword f)); cbn [negb];
    [|reflexivity].
  destruct (Nat.ltb_spec (js_length (password f)) 6) as [Hshort|Hlong].
  - destruct (Nat.leb_spec 6 (js_length (password f))); [lia | reflexivity].
  - destruct (Nat.leb_spec 6 (js_length (password f))); [|lia].
    destruct (post_register _ (server Server a)) as [response srv].
    destruct (SpaAuth.register JSON_stringify response (session Server a))
      as [[r|err] p]; [|reflexivity].
    destruct (SpaAuth.success r); [|reflexivity].
    destruct (JSON_parse _) as [user|]; [|reflexivity].
    destruct (member user "role"); reflexivity.
Qed.

(** A registration that passes the checks and is answered with an identity
    signs the visitor in and goes to the dashboard of the identity's role,
    where the guard lets an officer and a vehicle owner through and sends
    any other role on to the landing page; the form ends without a message
    and no longer loading. *)
Theorem spa_registration_lands_on_the_dashboard
    (f : register_form) (a : app) (res : jsval) (srv : Server) :
  let u := get (get res "data") "user" in
  password f = confirmPassword f ->
  (6 <= js_length (password f))%nat ->
  post_register (payload_of f) (server Server a) = (Fulfilled res, srv) ->
  truthy u = true ->
  JSON_parse (JSON_stringify u) = Some u ->
  SpaAuth.loading (fst (session Server a)) = false ->
  exists f' a' r,
    submit f a = (Fulfilled tt, (f', a'))
    /\ loading f' = false
    /\ error f' = JStr EmptyString
    /\ SpaAuth.user (fst (session Server a')) = u
    /\ navigated Server a' = Some (Routes.dashboard_of u)
    /\ Routes.spa_resolve (Routes.dashboard_of u) = Some r
    /\ Routes.spa_settle 1 r (fst (session Server a'))
       = Some (Routes.Page
                 (if strict_eq_str (get u "role") "officer" then "OfficerDashboard"
                  else if strict_eq_str (get u "role") "public" then "UserDashboard"
                  else "LandingPage")).
Proof.
  cbv zeta. intros Hsame Hlong Hpost Hu Hback Hload.
  destruct (session Server a) as [s e] eqn:Hsess. cbn [fst] in Hload.
  do 2 eexists.
  exists (if strict_eq_str (get (get (get res "data") "user") "role") "officer"
          then Routes.SpaOfficerDashboard else Routes.SpaUserDashboard).
  split.
  { unfold handleSubmit. rewrite <- Hsame, String.eqb_refl. cbn [negb].
    destruct (Nat.ltb_spec (js_length (password f)) 6) as [Hshort|_]; [lia|].
    rewrite Hpost, Hsess.
    unfold SpaAuth.register, SpaAuth.establish. cbv beta iota zeta.
    rewrite (SessionSpec.truthy_get_object _ _ Hu).
    cbv beta iota zeta. cbn [SpaAuth.success snd SpaAuth.localStorage].
    unfold SpaAuth.getItem. rewrite lookup_insert_eq. cbn [toString].
    rewrite Hback. rewrite (member_of_truthy _ "role" Hu).
    reflexivity. }
  cbn [loading error with_loading with_error session navigated fst SpaAuth.user].
  split; [reflexivity|]. split; [reflexivity|]. split; [reflexivity|].
  unfold Routes.dashboard_of.
  split; [reflexivity|].
  unfold Routes.spa_settle, Routes.AppRoutes, Guard.SpaProtectedRoute, includes.
  cbn [SpaAuth.loading SpaAuth.user]. rewrite Hload.
  destruct (get (get (get res "data") "user") "role") as [| |b|z|t|l|fs];
    simpl; rewrite ?Hu; simpl; try (split; reflexivity).
  destruct (String.eqb_spec t "officer") as [->|Ho]; simpl; rewrite ?Hu; simpl;
    [split; reflexivity|].
  destruct (String.eqb_spec t "public") as [->|Hp]; simpl; split; reflexivity.
Qed.

End WithBackend.
End SpaPageProps.

(** ** The vehicle owner's dashboard of the SPA *)
Module SpaDashboardProps.
Import Dashboard SpaDashboard.
Local Open Scope list_scope.

Section WithBackend.
Variable Server : Type.
Variable post_pay : jsval -> Server -> settled jsval * Server.
Variable get_challans : Server -> settled (option (list challan)) * Server.

Local Abbreviation page := (page Server).
Local Abbreviation click := (click_row Server post_pay get_challans).

Lemma posts_app (l m : list spa_event) : posts (l ++ m) = posts l ++ posts m.
Proof.
  induction l as [|[q a|msg|url|url|err] l IH]; simpl; try assumption.
  - reflexivity.
  - now rewrite IH.
Qed.

Lemma fetch_posts (p : page) :
  posts (seen Server (fetchChallans Server get_challans p)) = posts (seen Server p).
Proof.
  unfold fetchChallans, note. simpl.
  destruct (get_challans (server Server p)) as [[r|err] srv]; simpl;
    rewrite ?posts_app; simpl; now rewrite ?app_nil_r.
Qed.

(** In the SPA a payment leaves only for a row whose status is exactly
    ['unpaid'] and only after the visitor confirmed: a click then posts once
    to the pay address of that row's challan; a click on any other row, or
    a declined question, posts nothing and leaves the list as it was. *)
Theorem spa_pays_only_confirmed_unpaid
    (challans : list challan) (i : nat) (c : challan) (confirmed : bool) (p : page) :
  challans !! i = Some c ->
  let p' := snd (click challans i confirmed p) in
  if strict_eq_str (c_status c) "unpaid" && confirmed then
    posts (seen Server p')
      = posts (seen Server p) ++ [("/challans/" ++ toString (c_id c) ++ "/pay")%string]
  else
    posts (seen Server p') = posts (seen Server p)
    /\ challans_cell Server p' = challans_cell Server p
    /\ fst (click challans i confirmed p) = Fulfilled tt.
Proof.
  intros Hi. cbv zeta. unfold click_row.
  rewrite (ReconcileSpec.lookup_map _ challans i c Hi). unfold pay_control.
  destruct (strict_eq_str (c_status c) "unpaid"); cbn [andb];
    [|repeat split].
  unfold handlePayChallan. destruct confirmed; cbn [negb].
  - unfold note at 1 2. cbn [server seen].
    destruct (post_pay (c_id c) (server Server p)) as [[ok|err] srv].
    + cbn [snd]. rewrite fetch_posts. unfold note. cbn [seen].
      rewrite !posts_app. simpl. now rewrite !app_nil_r.
    + destruct (member err "response"); cbn [snd]; unfold note; cbn [seen];
        rewrite !posts_app; simpl; now rewrite ?app_nil_r.
  - cbn [fst snd]. unfold note. cbn [seen challans_cell].
    rewrite posts_app. simpl. rewrite app_nil_r. repeat split.
Qed.

End WithBackend.
End SpaDashboardProps.

(** ** Concrete runs of the properties above *)
Module SampleRuns.
Import Samples.
Local Open Scope list_scope.

(** A theme preference stored by another script survives a login and a
    logout. *)
Lemma other_entries_untouched_witness :
  AuthStore.localStorage
    (snd (AuthStore.run MiniJSON.parse MiniJSON.stringify
            [AuthStore.Login login_body with_vehicle; AuthStore.Logout]
            (<["theme" := "dark"%string]> ∅)))
    !! "theme"
  = Some "dark"%string.
Proof.
  rewrite (StoreProps.other_entries_untouched MiniJSON.parse MiniJSON.stringify
             [AuthStore.Login login_body with_vehicle; AuthStore.Logout]
             (<["theme" := "dark"%string]> ∅) "theme" ltac:(discriminate)).
  reflexivity.
Defined.

Lemma spa_other_entries_untouched_witness :
  SpaAuth.localStorage
    (snd (SpaAuth.run MiniJSON.parse MiniJSON.stringify
            [SpaAuth.Login login_response; SpaAuth.Logout]
            (<["theme" := "dark"%string]> ∅)))
    !! "theme"
  = Some "dark"%string.
Proof.
  rewrite (SpaStoreProps.spa_other_entries_untouched
             MiniJSON.parse MiniJSON.stringify
             [SpaAuth.Login login_response; SpaAuth.Logout]
             (<["theme" := "dark"%string]> ∅) "theme"
             ltac:(discriminate) ltac:(discriminate) ltac:(discriminate)).
  reflexivity.
Defined.

(** The backend refuses the password: the form is told its message. *)
Lemma refused_login_reports_witness :
  SpaAuth.login MiniJSON.stringify
    (Rejected (DemoAuth.refusal 401 "Invalid credentials"))
    (SpaPages.session nat DemoAuth.spa_opened)
  = (Fulfilled {| SpaAuth.success := false;
                  SpaAuth.error := JStr "Invalid credentials" |},
     SpaPages.session nat DemoAuth.spa_opened).
Proof.
  destruct (SpaStoreProps.refused_login_reports MiniJSON.stringify
              (DemoAuth.refusal 401 "Invalid credentials")
              (JObj [("status", JNum 401);
                     ("data", JObj [("message", JStr "Invalid credentials")])])
              (SpaPages.session nat DemoAuth.spa_opened) eq_refl)
    as (msg & Hrun & _ & Hmsg & _).
  rewrite Hrun. now rewrite (Hmsg eq_refl).
Defined.

(** A first login in the SPA, then a reload. *)
Lemma spa_session_round_trip_witness :
  SpaAuth.authorization
    (snd (SpaAuth.run MiniJSON.parse MiniJSON.stringify
            [SpaAuth.Login login_response; SpaAuth.Reload] ∅))
  = Some "Bearer jwt-2"%string.
Proof.
  destruct (SpaStoreProps.spa_session_round_trip MiniJSON.parse MiniJSON.stringify
              [] ∅ (JObj [("status", JNum 200); ("data", login_body)])
              eq_refl ltac:(discriminate) eq_refl ltac:(vm_compute; reflexivity))
    as (_ & Hheader & Hreload).
  unfold SpaAuth.run in *. cbn [fold_left] in *.
  unfold login_response. rewrite Hreload. exact Hheader.
Defined.

(** The owner of a session opens the login page of the SPA. *)
Lemma spa_login_route_when_signed_in_witness :
  Routes.spa_settle 2 Routes.SpaLogin spa_signed_in_owner
  = Some (Routes.Page "UserDashboard").
Proof.
  exact (RouteProps.spa_login_route_when_signed_in spa_signed_in_owner
           eq_refl eq_refl).
Defined.


(** A visitor registers as a user with a vehicle number. *)
Lemma registration_lands_on_the_dashboard_witness :
  Routes.App Routes.Dashboard
    (AuthStore.value
       (Pages.session nat
          (snd (Pages.register_handleSubmit MiniJSON.stringify nat
                  DemoAuth.post_register DemoAuth.post_validate_key
                  DemoAuth.user_form DemoAuth.opened))))
  = Routes.Page "UserDashboard".
Proof.
  destruct (PageProps.registration_lands_on_the_dashboard MiniJSON.stringify nat
              DemoAuth.post_register DemoAuth.post_validate_key
              DemoAuth.user_form DemoAuth.opened
              (DemoAuth.answer
                 (JObj [("name", JStr "Ravi"); ("email", JStr "ravi@example.org");
                        ("password", JStr "correct horse");
                        ("role", JStr "public");
                        ("vehicle_number", JStr "KA01AB1234")]) 0)
              1%nat eq_refl eq_refl eq_refl eq_refl)
    as (_ & _ & _ & Hshown).
  exact Hshown.
Defined.

(** A visitor registers in the SPA as an officer. *)
Lemma spa_registration_lands_on_the_dashboard_witness :
  exists f' a',
    SpaPages.handleSubmit MiniJSON.parse MiniJSON.stringify nat
      DemoAuth.post_register DemoAuth.spa_form DemoAuth.spa_opened
    = (Fulfilled tt, (f', a'))
    /\ SpaPages.navigated nat a' = Some "/officer/dashboard"%string.
Proof.
  destruct (SpaPageProps.spa_registration_lands_on_the_dashboard
              MiniJSON.parse MiniJSON.stringify nat DemoAuth.post_register
              DemoAuth.spa_form DemoAuth.spa_opened
              (DemoAuth.answer
                 (JObj [("name", JStr "Asha"); ("email", JStr "asha@example.org");
                        ("password", JStr "correct horse");
                        ("role", JStr "officer")]) 0)
              1%nat eq_refl
              ltac:(apply Nat.leb_le; reflexivity)
              eq_refl eq_refl ltac:(vm_compute; reflexivity) eq_refl)
    as (f' & a' & r & Hrun & _ & _ & _ & Hnav & _).
  exists f', a'. split; [exact Hrun | exact Hnav].
Defined.

(** Two rows, the first paid: a confirmed click on the second posts to its
    pay address. *)
Lemma spa_pays_only_confirmed_unpaid_witness :
  SpaDashboard.posts
    (SpaDashboard.seen (list Dashboard.challan)
       (snd (SpaDashboard.click_row (list Dashboard.challan)
               DemoSpa.post_pay DemoSpa.get_challans
               DemoSpa.rows 1 true DemoSpa.opened)))
  = ["/challans/2/pay"%string].
Proof.
  exact (SpaDashboardProps.spa_pays_only_confirmed_unpaid (list Dashboard.challan)
           DemoSpa.post_pay DemoSpa.get_challans
           DemoSpa.rows 1 unpaid_challan true DemoSpa.opened eq_refl).
Defined.

End SampleRuns.
